(** * orbit-tool: the force models and propagators of [orbital_dynamics.py]

    A shallow embedding of the three propagators and of the derivative
    closures ([differential_system]) they hand to the integrator [rk_45].

    Numbers.  The program computes with IEEE binary64 values.  They are
    modelled by [num]: an exact real number, or the single value [NonFinite]
    that stands for the three float results NaN, +Inf and -Inf.  Rounding,
    overflow and underflow are not modelled; what is modelled is where a
    non-finite value is created (a division by zero, the square root of a
    negative number) and that it then spreads through [+], [-] and [*].
    A statement over [num] is therefore a statement in exact arithmetic: it
    tells what the formulas of the code compute, not what binary64 does when
    a square underflows to 0 or a power overflows (on Python numbers [**]
    then raises OverflowError).  Where a property is about binary64 itself,
    the two-body closure is evaluated on primitive binary64 values, in
    module [Binary64].

    Errors.  Python exceptions are modelled by [result]: a call returns
    [Ok v] or raises an exception, [Raise e]. *)

From Stdlib Require Import Reals Lra Lia List.
From Stdlib Require String.
From Stdlib Require PrimFloat.
Import ListNotations.

Open Scope R_scope.

(** ** The number domain *)

Module Num.

Inductive num : Type :=
| Finite (x : R)
| NonFinite.

Definition is_finite (a : num) : Prop :=
  match a with Finite _ => True | NonFinite => False end.

(** [+], [-], [*] and unary [-]: exact on finite operands; a non-finite
    operand gives a non-finite result (Inf + x, Inf - Inf, Inf * 0, NaN * x
    are all Inf or NaN). *)
Definition add (a b : num) : num :=
  match a, b with
  | Finite x, Finite y => Finite (x + y)
  | _, _ => NonFinite
  end.

Definition sub (a b : num) : num :=
  match a, b with
  | Finite x, Finite y => Finite (x - y)
  | _, _ => NonFinite
  end.

Definition mul (a b : num) : num :=
  match a, b with
  | Finite x, Finite y => Finite (x * y)
  | _, _ => NonFinite
  end.

Definition neg (a : num) : num :=
  match a with
  | Finite x => Finite (- x)
  | NonFinite => NonFinite
  end.

(** [a / b] where the divisor is a numpy float64 (every divisor inside the
    derivative closures is a power of a [np.sqrt] result): numpy does not
    raise on a zero divisor, it warns and returns Inf (x / 0) or NaN (0 / 0).
    Every divisor of the program is computed from finite values by [+], [-],
    [*], [**] and [np.sqrt] of a sum of squares, so the last case (where
    x / Inf would be 0) is never reached from finite inputs. *)
Definition np_div (a b : num) : num :=
  match a, b with
  | Finite x, Finite y => if Req_dec_T y 0 then NonFinite else Finite (x / y)
  | _, _ => NonFinite
  end.

(** [a ** n] for the literal exponents 2 and 3 of the source, in exact
    arithmetic.  Outside the model: in binary64 the power of a very small
    number underflows to 0.0, and the power of a very large one is Inf on a
    numpy float64 and raises OverflowError on a Python number. *)
Definition pow (a : num) (n : nat) : num :=
  match a with
  | Finite x => Finite (x ^ n)
  | NonFinite => NonFinite
  end.

(** [np.sqrt]: NaN (with a warning, no exception) on a negative argument. *)
Definition np_sqrt (a : num) : num :=
  match a with
  | Finite x => if Rlt_dec x 0 then NonFinite else Finite (sqrt x)
  | NonFinite => NonFinite
  end.

(** Is the value a float zero?  Used by Python's own division below. *)
Definition is_zero (a : num) : bool :=
  match a with
  | Finite x => if Req_dec_T x 0 then true else false
  | NonFinite => false
  end.

End Num.

Export Num.

Declare Scope num_scope.
Delimit Scope num_scope with num.
Bind Scope num_scope with num.
Infix "+" := add : num_scope.
Infix "-" := sub : num_scope.
Infix "*" := mul : num_scope.
Infix "/" := np_div : num_scope.
Infix "**" := pow (at level 30, right associativity) : num_scope.
Notation "- a" := (neg a) : num_scope.

(** ** Python exceptions *)

Module Py.

(** The exceptions of the exact-arithmetic model.  The OverflowError that
    [**] raises on a Python number whose power leaves the range of binary64
    needs that range and is not among them. *)
Inductive exn : Type :=
| ValueError          (* unpacking a sequence of the wrong length *)
| ZeroDivisionError.  (* float division by zero *)

Inductive result (A : Type) : Type :=
| Ok (a : A)
| Raise (e : exn).

Arguments Ok {A} a.
Arguments Raise {A} e.

Definition bind {A B : Type} (m : result A) (k : A -> result B) : result B :=
  match m with
  | Ok a => k a
  | Raise e => Raise e
  end.

(** [a / b] on two Python floats (the propagators' own arguments, which the
    dashboard passes as [float(...)]): raises on a zero divisor. *)
Definition py_div (a b : num) : result num :=
  if is_zero b then Raise ZeroDivisionError else Ok (np_div a b).

End Py.

Export Py.

Notation "x <- m ;; k" := (bind m (fun x => k))
  (at level 61, m at next level, right associativity).

(** The state vectors, and what [rk_45] returns: [(solution_out, time_out)]. *)
Definition state : Type := list num.
Definition trajectory : Type := (list state * list num)%type.

(** The derivative function handed to the integrator: [f(t, s)]. *)
Definition derivative : Type := num -> state -> result state.

(** [rk_45(f, initial_conditions, t_init, t_final, step_size, tolerance, beta)]
    comes from the module [solve_ode_ivp]; the propagators only call it. *)
Definition integrator : Type :=
  derivative -> state -> num -> num -> option num -> num -> num ->
  result trajectory.

(** ** orbital_dynamics.py *)

Module OrbitalDynamics.

Local Open Scope num_scope.

(** The literal [2] of the source. *)
Definition two : num := Finite 2.

(** *** two_body_propagator *)

(** The closure [differential_system(t, s)] of [two_body_propagator]; its
    captured variables [mu_1], [mu_2] are made arguments. *)
Definition two_body_differential_system (mu_1 mu_2 : num) : derivative :=
  fun t s =>
    match s with
    | [x_1; y_1; z_1; vx_1; vy_1; vz_1; x_2; y_2; z_2; vx_2; vy_2; vz_2] =>
        let r := np_sqrt ((x_2 - x_1) ** 2 + (y_2 - y_1) ** 2 + (z_2 - z_1) ** 2) in
        Ok [ vx_1;
             vy_1;
             vz_1;
             mu_2 * (x_2 - x_1) / r ** 3;
             mu_2 * (y_2 - y_1) / r ** 3;
             mu_2 * (z_2 - z_1) / r ** 3;
             vx_2;
             vy_2;
             vz_2;
             mu_1 * (x_1 - x_2) / r ** 3;
             mu_1 * (y_1 - y_2) / r ** 3;
             mu_1 * (z_1 - z_2) / r ** 3 ]
    | _ => Raise ValueError
    end.

Definition two_body_propagator (rk_45 : integrator)
    (t_init t_final mass_1 mass_2 : num) (initial_conditions : state)
    (grav_constant : num) (step_size : option num) (tolerance beta : num)
  : result trajectory :=
  let mu_1 := grav_constant * mass_1 in
  let mu_2 := grav_constant * mass_2 in
  rk_45 (two_body_differential_system mu_1 mu_2)
        initial_conditions t_init t_final step_size tolerance beta.

(** *** three_body_cr_propagator *)

(** The closure [differential_system(t, s)] of [three_body_cr_propagator];
    captured: [mu_1], [mu_2], [pi_1], [pi_2], [omega] and the argument [r_12]. *)
Definition three_body_cr_differential_system
    (mu_1 mu_2 pi_1 pi_2 omega r_12 : num) : derivative :=
  fun t s =>
    match s with
    | [x; y; z; v_x; v_y; v_z] =>
        let r_1 := np_sqrt ((x + pi_2 * r_12) ** 2 + y ** 2 + z ** 2) in
        let r_2 := np_sqrt ((x - pi_1 * r_12) ** 2 + y ** 2 + z ** 2) in
        Ok [ v_x;
             v_y;
             v_z;
             two * omega * v_y + x * omega ** 2
               - (mu_1 / r_1 ** 3) * (x + pi_2 * r_12)
               - (mu_2 / r_2 ** 3) * (x - pi_1 * r_12);
             (- two) * omega * v_x + y * omega ** 2
               - (mu_1 / r_1 ** 3) * y - (mu_2 / r_2 ** 3) * y;
             (- (mu_1 / r_1 ** 3)) * z - (mu_2 / r_2 ** 3) * z ]
    | _ => Raise ValueError
    end.

(** The three divisions of the body are divisions of Python floats.  In
    exact arithmetic [r_12 ** 3] is zero only for [r_12 = 0] and never
    overflows; the OverflowError and the underflow to 0.0 of that power at
    the ends of the binary64 range are outside the model. *)
Definition three_body_cr_propagator (rk_45 : integrator)
    (t_init t_final mass_1 mass_2 r_12 : num) (initial_conditions : state)
    (grav_constant : num) (step_size : option num) (tolerance beta : num)
  : result trajectory :=
  let mu_1 := grav_constant * mass_1 in
  let mu_2 := grav_constant * mass_2 in
  pi_1 <- py_div mass_1 (mass_1 + mass_2) ;;
  pi_2 <- py_div mass_2 (mass_1 + mass_2) ;;
  q <- py_div (grav_constant * (mass_1 + mass_2)) (r_12 ** 3) ;;
  let omega := np_sqrt q in
  rk_45 (three_body_cr_differential_system mu_1 mu_2 pi_1 pi_2 omega r_12)
        initial_conditions t_init t_final step_size tolerance beta.

(** *** three_body_propagator *)

(** The closure [differential_system(t, s)] of [three_body_propagator];
    captured: [mu_1], [mu_2], [mu_3]. *)
Definition three_body_differential_system (mu_1 mu_2 mu_3 : num) : derivative :=
  fun t s =>
    match s with
    | [x_1; y_1; z_1; vx_1; vy_1; vz_1;
       x_2; y_2; z_2; vx_2; vy_2; vz_2;
       x_3; y_3; z_3; vx_3; vy_3; vz_3] =>
        let r_12 := np_sqrt ((x_2 - x_1) ** 2 + (y_2 - y_1) ** 2 + (z_2 - z_1) ** 2) in
        let r_13 := np_sqrt ((x_3 - x_1) ** 2 + (y_3 - y_1) ** 2 + (z_3 - z_1) ** 2) in
        let r_32 := np_sqrt ((x_3 - x_2) ** 2 + (y_3 - y_2) ** 2 + (z_3 - z_2) ** 2) in
        Ok [ vx_1;
             vy_1;
             vz_1;
             mu_2 * (x_2 - x_1) / r_12 ** 3 + mu_3 * (x_3 - x_1) / r_13 ** 3;
             mu_2 * (y_2 - y_1) / r_12 ** 3 + mu_3 * (y_3 - y_1) / r_13 ** 3;
             mu_2 * (z_2 - z_1) / r_12 ** 3 + mu_3 * (z_3 - z_1) / r_13 ** 3;
             vx_2;
             vy_2;
             vz_2;
             mu_1 * (x_1 - x_2) / r_12 ** 3 + mu_3 * (x_3 - x_2) / r_32 ** 3;
             mu_1 * (y_1 - y_2) / r_12 ** 3 + mu_3 * (y_3 - y_2) / r_32 ** 3;
             mu_1 * (z_1 - z_2) / r_12 ** 3 + mu_3 * (z_3 - z_2) / r_32 ** 3;
             vx_3;
             vy_3;
             vz_3;
             mu_1 * (x_1 - x_3) / r_13 ** 3 + mu_2 * (x_2 - x_3) / r_32 ** 3;
             mu_1 * (y_1 - y_3) / r_13 ** 3 + mu_2 * (y_2 - y_3) / r_32 ** 3;
             mu_1 * (z_1 - z_3) / r_13 ** 3 + mu_2 * (z_2 - z_3) / r_32 ** 3 ]
    | _ => Raise ValueError
    end.

Definition three_body_propagator (rk_45 : integrator)
    (t_init t_final mass_1 mass_2 mass_3 : num) (initial_conditions : state)
    (grav_constant : num) (step_size : option num) (tolerance beta : num)
  : result trajectory :=
  let mu_1 := grav_constant * mass_1 in
  let mu_2 := grav_constant * mass_2 in
  let mu_3 := grav_constant * mass_3 in
  rk_45 (three_body_differential_system mu_1 mu_2 mu_3)
        initial_conditions t_init t_final step_size tolerance beta.

End OrbitalDynamics.

Export OrbitalDynamics.

(** ** The specification's vocabulary

    Definitions that follow the words of the specification (vectors, the
    gravitational pull, the variants and their required separations), to be
    compared with the component-wise code above. *)

Module Spec.

Definition vec3 : Type := (R * R * R)%type.

Definition vadd (u v : vec3) : vec3 :=
  let '(a, b, c) := u in let '(d, e, f) := v in (a + d, b + e, c + f).

Definition vsub (u v : vec3) : vec3 :=
  let '(a, b, c) := u in let '(d, e, f) := v in (a - d, b - e, c - f).

Definition vscale (k : R) (u : vec3) : vec3 :=
  let '(a, b, c) := u in (k * a, k * b, k * c).

(** Euclidean length. *)
Definition norm3 (u : vec3) : R :=
  let '(a, b, c) := u in sqrt (a ^ 2 + b ^ 2 + c ^ 2).

(** The components of a sequence of vectors, in order. *)
Definition flat (vs : list vec3) : list R :=
  flat_map (fun u => let '(a, b, c) := u in [a; b; c]) vs.

(** A state of real numbers, as the code receives it. *)
Definition fin (s : list R) : state := map Finite s.

(** The pull of a body of gravitational parameter [mu] at [q] on a body at
    [p]: mu (q - p) / |q - p|^3. *)
Definition pull (mu : R) (p q : vec3) : vec3 :=
  vscale (mu / norm3 (vsub q p) ^ 3) (vsub q p).

(** TwoBody: velocities pass through; each body is pulled by the other. *)
Definition two_body_derivative (mu_1 mu_2 : R) (p1 v1 p2 v2 : vec3) : list R :=
  flat [v1; pull mu_2 p1 p2; v2; pull mu_1 p2 p1].

(** GeneralThreeBody: each body is pulled by the other two. *)
Definition three_body_derivative (mu_1 mu_2 mu_3 : R)
    (p1 v1 p2 v2 p3 v3 : vec3) : list R :=
  flat [v1; vadd (pull mu_2 p1 p2) (pull mu_3 p1 p3);
        v2; vadd (pull mu_1 p2 p1) (pull mu_3 p2 p3);
        v3; vadd (pull mu_1 p3 p1) (pull mu_2 p3 p2)].

(** RestrictedThreeBody: the primaries sit at x = -pi_2 r_12 and
    x = +pi_1 r_12. *)
Definition primary_1 (pi_2 r_12 : R) : vec3 := (- (pi_2 * r_12), 0, 0).
Definition primary_2 (pi_1 r_12 : R) : vec3 := (pi_1 * r_12, 0, 0).

(** Coriolis term: +2 omega v_y in x, -2 omega v_x in y. *)
Definition coriolis (omega : R) (v : vec3) : vec3 :=
  let '(v_x, v_y, v_z) := v in (2 * omega * v_y, - (2 * omega * v_x), 0).

(** Centrifugal term, read as the words "position . omega^2" say: the whole
    position vector scaled by omega^2. *)
Definition centrifugal_of_position (omega : R) (p : vec3) : vec3 :=
  vscale (omega ^ 2) p.

(** Centrifugal term of a frame rotating about the z axis: omega^2 times the
    part of the position that lies in the plane of rotation. *)
Definition centrifugal_in_plane (omega : R) (p : vec3) : vec3 :=
  let '(x, y, z) := p in (omega ^ 2 * x, omega ^ 2 * y, 0).

(** Acceleration = centrifugal + Coriolis - pull toward each primary scaled
    by mu_i / r_i^3, for a given reading of the centrifugal term. *)
Definition cr_acceleration (centrifugal : R -> vec3 -> vec3)
    (mu_1 mu_2 pi_1 pi_2 omega r_12 : R) (p v : vec3) : vec3 :=
  let d1 := vsub p (primary_1 pi_2 r_12) in
  let d2 := vsub p (primary_2 pi_1 r_12) in
  vsub (vsub (vadd (centrifugal omega p) (coriolis omega v))
             (vscale (mu_1 / norm3 d1 ^ 3) d1))
       (vscale (mu_2 / norm3 d2 ^ 3) d2).

Definition cr_derivative (centrifugal : R -> vec3 -> vec3)
    (mu_1 mu_2 pi_1 pi_2 omega r_12 : R) (p v : vec3) : list R :=
  flat [v; cr_acceleration centrifugal mu_1 mu_2 pi_1 pi_2 omega r_12 p v].

(** Keplerian motion about a primary of parameter [mu] at the origin:
    [v, -mu pos / |pos|^3]. *)
Definition kepler_derivative (mu : R) (p v : vec3) : list R :=
  flat [v; vscale (- (mu / norm3 p ^ 3)) p].

(** The three ForceModel variants with their constants. *)
Inductive force_model : Type :=
| TwoBody (mu_1 mu_2 : R)
| RestrictedThreeBody (mu_1 mu_2 pi_1 pi_2 omega r_12 : R)
| GeneralThreeBody (mu_1 mu_2 mu_3 : R).

Definition dimension (m : force_model) : nat :=
  match m with
  | TwoBody _ _ => 12
  | RestrictedThreeBody _ _ _ _ _ _ => 6
  | GeneralThreeBody _ _ _ => 18
  end.

(** [evaluate] is the closure the matching propagator builds. *)
Definition evaluate (m : force_model) : derivative :=
  match m with
  | TwoBody mu_1 mu_2 =>
      two_body_differential_system (Finite mu_1) (Finite mu_2)
  | RestrictedThreeBody mu_1 mu_2 pi_1 pi_2 omega r_12 =>
      three_body_cr_differential_system (Finite mu_1) (Finite mu_2)
        (Finite pi_1) (Finite pi_2) (Finite omega) (Finite r_12)
  | GeneralThreeBody mu_1 mu_2 mu_3 =>
      three_body_differential_system (Finite mu_1) (Finite mu_2) (Finite mu_3)
  end.

(** The separations a variant requires to be nonzero at a state: the
    distance between the two bodies; the distances to the two primaries; the
    three pairwise distances. *)
Definition separations (m : force_model) (s : list R) : list R :=
  match m, s with
  | TwoBody _ _, [x_1; y_1; z_1; _; _; _; x_2; y_2; z_2; _; _; _] =>
      [norm3 (vsub (x_2, y_2, z_2) (x_1, y_1, z_1))]
  | RestrictedThreeBody _ _ pi_1 pi_2 _ r_12, [x; y; z; _; _; _] =>
      [norm3 (vsub (x, y, z) (primary_1 pi_2 r_12));
       norm3 (vsub (x, y, z) (primary_2 pi_1 r_12))]
  | GeneralThreeBody _ _ _,
    [x_1; y_1; z_1; _; _; _; x_2; y_2; z_2; _; _; _; x_3; y_3; z_3; _; _; _] =>
      [norm3 (vsub (x_2, y_2, z_2) (x_1, y_1, z_1));
       norm3 (vsub (x_3, y_3, z_3) (x_1, y_1, z_1));
       norm3 (vsub (x_3, y_3, z_3) (x_2, y_2, z_2))]
  | _, _ => []
  end.

(** Total linear momentum mass_1 vel_1 + mass_2 vel_2 of a two-body state;
    on a derivative vector the same slots hold the accelerations, so there
    it is the rate of change of the momentum. *)
Definition linear_momentum (mass_1 mass_2 : num) (s : state) : list num :=
  match s with
  | [_; _; _; vx_1; vy_1; vz_1; _; _; _; vx_2; vy_2; vz_2] =>
      [ (mass_1 * vx_1 + mass_2 * vx_2)%num;
        (mass_1 * vy_1 + mass_2 * vy_2)%num;
        (mass_1 * vz_1 + mass_2 * vz_2)%num ]
  | _ => []
  end.

(** Strict order on program numbers (false when either side is not finite). *)
Definition lt (a b : num) : Prop :=
  match a, b with
  | Finite x, Finite y => x < y
  | _, _ => False
  end.

(** The validation the specification asks of a propagator. *)
Definition valid_problem (dim : nat) (initial_conditions : state)
    (t_init t_final tolerance beta : num) : Prop :=
  length initial_conditions = dim /\ lt t_init t_final /\
  lt (Finite 0) tolerance /\ lt (Finite 0) beta /\ lt beta (Finite 1).

Definition valid_two_body (t_init t_final mass_1 mass_2 : num)
    (initial_conditions : state) (tolerance beta : num) : Prop :=
  valid_problem 12 initial_conditions t_init t_final tolerance beta /\
  lt (Finite 0) mass_1 /\ lt (Finite 0) mass_2.

Definition valid_three_body_cr (t_init t_final mass_1 mass_2 r_12 : num)
    (initial_conditions : state) (tolerance beta : num) : Prop :=
  valid_problem 6 initial_conditions t_init t_final tolerance beta /\
  lt (Finite 0) mass_1 /\ lt (Finite 0) mass_2 /\ lt (Finite 0) r_12.

Definition valid_three_body (t_init t_final mass_1 mass_2 mass_3 : num)
    (initial_conditions : state) (tolerance beta : num) : Prop :=
  valid_problem 18 initial_conditions t_init t_final tolerance beta /\
  lt (Finite 0) mass_1 /\ lt (Finite 0) mass_2 /\ lt (Finite 0) mass_3.

(** An integrator that starts work on whatever it is given: it records the
    initial sample and returns.  It stands in for [rk_45] where a concrete
    run is needed. *)
Definition first_sample_rk_45 : integrator :=
  fun f initial_conditions t_init t_final step_size tolerance beta =>
    Ok ([initial_conditions], [t_init]).

(** A call is rejected before integration starts when it raises without
    consulting the integrator: the same exception whatever [rk_45] is. *)
Definition rejected_before_integration
    (call : integrator -> result trajectory) : Prop :=
  exists e : exn, forall rk_45 : integrator, call rk_45 = Raise e.

(** Well-formed initial states for the counterexamples below. *)
Definition sample_two_body_state : state :=
  fin (flat [(0, 0, 0); (10, 20, 30); (3000, 0, 0); (0, 40, 0)]).

Definition sample_restricted_state : state :=
  fin (flat [(0, 1, 0); (0, 0, 0)]).

End Spec.

Export Spec.

(** ** orbital_dynamics.py: time since periapsis *)

Module Anomaly.

Local Open Scope num_scope.

(** [np.pi]. *)
Definition pi : num := Finite PI.

(** [np.tan], exact on the reals; at a pole of the tangent the exact value
    is infinite.  No binary64 value is a pole (pi / 2 is not a float), so
    the code itself never meets this case: [np.tan] is finite on every
    finite float. *)
Definition np_tan (a : num) : num :=
  match a with
  | Finite x => if Req_dec_T (cos x) 0 then NonFinite else Finite (tan x)
  | NonFinite => NonFinite
  end.

(** [np.arctan] and [np.sin]; NaN in, NaN out. *)
Definition np_arctan (a : num) : num :=
  match a with
  | Finite x => Finite (atan x)
  | NonFinite => NonFinite
  end.

Definition np_sin (a : num) : num :=
  match a with
  | Finite x => Finite (sin x)
  | NonFinite => NonFinite
  end.

(** The default [mu=398600] of [periapsis_to_true_anomaly]. *)
Definition default_mu : num := Finite 398600.

(** [periapsis_to_true_anomaly(eccentricity, angular_momentum, true_anomaly,
    mu)].  The arguments are Python numbers, so [2 * np.pi / mu ** 2],
    [(1 - e) / (1 + e)] and [true_anomaly / 2] are Python divisions; the
    other two divisions have a numpy float64 operand.  Exact arithmetic:
    the OverflowError of [mu ** 2] and [eccentricity ** 2] and the underflow
    of [mu ** 2] to 0.0 at the ends of the binary64 range are outside the
    model. *)
Definition periapsis_to_true_anomaly
    (eccentricity angular_momentum true_anomaly mu : num) : result num :=
  a <- py_div (two * pi) (mu ** 2) ;;
  let orbit_period :=
    a * (angular_momentum / np_sqrt (Finite 1 - eccentricity ** 2)) ** 3 in
  k <- py_div (Finite 1 - eccentricity) (Finite 1 + eccentricity) ;;
  half <- py_div true_anomaly two ;;
  let eccentric_anomaly := two * np_arctan (np_sqrt (k * np_tan half)) in
  let mean_anomaly :=
    eccentric_anomaly - eccentricity * np_sin eccentric_anomaly in
  let time := (mean_anomaly / (two * pi)) * orbit_period in
  Ok time.

End Anomaly.

Export Anomaly.

(** ** Mechanics vocabulary for the properties of the vector fields *)

Module Mechanics.

Definition dot (u v : vec3) : R :=
  let '(a, b, c) := u in let '(d, e, f) := v in a * d + b * e + c * f.

Definition cross (u v : vec3) : vec3 :=
  let '(a, b, c) := u in let '(d, e, f) := v in
  (b * f - c * e, c * d - a * f, a * e - b * d).

(** The acceleration slots of body [i] (0, 1, 2) in the derivative vector of
    an inertial model: components 6 i + 3, 6 i + 4, 6 i + 5. *)
Definition accel (i : nat) (d : list R) : vec3 :=
  (nth (6 * i + 3) d 0, nth (6 * i + 4) d 0, nth (6 * i + 5) d 0).

(** The orbital period the function above computes, over the reals. *)
Definition orbit_period (mu angular_momentum eccentricity : R) : R :=
  2 * PI / mu ^ 2 * (angular_momentum / sqrt (1 - eccentricity ^ 2)) ^ 3.

(** The equilateral point of the restricted model on the side y > 0: at
    distance r_12 from both primaries. *)
Definition equilateral_point (pi_2 r_12 : R) : vec3 :=
  (r_12 / 2 - pi_2 * r_12, sqrt 3 / 2 * r_12, 0).

End Mechanics.

Export Mechanics.

(** ** orbit_tool.py: the propagator page of the dashboard *)

Module OrbitTool.

Import String.
Local Open Scope string_scope.

(** A dictionary value of the page: a number, or the text of an input field. *)
Inductive pyval : Type :=
| Number (x : num)
| Text (s : string).

(** A Python [dict] with string keys, in insertion order. *)
Definition dict : Type := list (string * pyval).

Inductive error : Type :=
| KeyError (key : string)   (* d[key] on a missing key *)
| TypeError                 (* a text where a number is needed *)
| Exn (e : exn).            (* raised by float(...) or by a propagator *)

Inductive outcome (A : Type) : Type :=
| Done (a : A)
| Fails (e : error).

Arguments Done {A} a.
Arguments Fails {A} e.

Definition and_then {A B : Type} (m : outcome A) (k : A -> outcome B)
  : outcome B :=
  match m with
  | Done a => k a
  | Fails e => Fails e
  end.

Notation "x <~ m ;; k" := (and_then m (fun x => k))
  (at level 61, m at next level, right associativity).

Definition lift {A : Type} (r : result A) : outcome A :=
  match r with
  | Ok a => Done a
  | Raise e => Fails (Exn e)
  end.

(** [d[key]]. *)
Fixpoint getitem (d : dict) (key : string) : outcome pyval :=
  match d with
  | [] => Fails (KeyError key)
  | (k, v) :: rest => if k =? key then Done v else getitem rest key
  end.

(** [d[key] = v]: replaces the value of an existing key in place, or adds
    the key at the end. *)
Fixpoint setitem (d : dict) (key : string) (v : pyval) : dict :=
  match d with
  | [] => [(key, v)]
  | (k, w) :: rest =>
      if k =? key then (k, v) :: rest else (k, w) :: setitem rest key v
  end.

(** The keys a [for key in d] loop visits. *)
Definition keys (d : dict) : list string := map fst d.

(** [for key in ks: st = body(key, st)]. *)
Fixpoint for_each {S : Type} (ks : list string)
    (body : string -> S -> outcome S) (st : S) : outcome S :=
  match ks with
  | [] => Done st
  | key :: rest => st' <~ body key st ;; for_each rest body st'
  end.

(** The three entries of [props]. *)
Inductive prop_option : Type :=
| GeneralTwoBody
| CircularRestrictedThreeBody
| GeneralThreeBody.

Local Open Scope R_scope.

Definition number (x : R) : pyval := Number (Finite x).

Definition default_setup (o : prop_option) : dict :=
  match o with
  | GeneralTwoBody =>
      [ ("t_init", number 0); ("t_final", number 480);
        ("mass_1", number 1e26); ("mass_2", number 1e26);
        ("grav_constant", number 6.67259e-11);
        ("tolerance", number 500); ("beta", number 0.8) ]
  | CircularRestrictedThreeBody =>
      [ ("t_init", number 0); ("t_final", number (3.16689 * 24 * 60 * 60));
        ("mass_1", number 5.974e24); ("mass_2", number 73.48e21);
        ("r_12", number 384400); ("grav_constant", number 6.6759e-20);
        ("tolerance", number 10); ("beta", number 0.8) ]
  | GeneralThreeBody =>
      [ ("t_init", number 0); ("t_final", number 7);
        ("mass_1", number 1); ("mass_2", number 1); ("mass_3", number 1);
        ("grav_constant", number 1);
        ("tolerance", number 0.005); ("beta", number 0.7) ]
  end.

Definition default_ic (o : prop_option) : dict :=
  match o with
  | GeneralTwoBody =>
      [ ("x_1", number 0); ("y_1", number 0); ("z_1", number 0);
        ("vx_1", number 10e3); ("vy_1", number 20e3); ("vz_1", number 30e3);
        ("x_2", number 3000e3); ("y_2", number 0); ("z_2", number 0);
        ("vx_2", number 0); ("vy_2", number 40e3); ("vz_2", number 0) ]
  | CircularRestrictedThreeBody =>
      [ ("x", number (-4671)); ("y", number (-6378 - 200)); ("z", number 0);
        ("v_x", number 10.2565702); ("v_y", number (-3.73308146));
        ("v_z", number 0) ]
  | GeneralThreeBody =>
      [ ("x_1", number (-1)); ("y_1", number 0); ("z_1", number 0);
        ("vx_1", number 0.39295); ("vy_1", number 0.09758); ("vz_1", number 0);
        ("x_2", number 1); ("y_2", number 0); ("z_2", number 0);
        ("vx_2", number 0.39295); ("vy_2", number 0.09758); ("vz_2", number 0);
        ("x_3", number 0); ("y_3", number 0); ("z_3", number 0);
        ("vx_3", number (-0.7859)); ("vy_3", number (-0.19516));
        ("vz_3", number 0) ]
  end.

Section Page.

(** [st.sidebar.text_input(label, value)]: the text now in the field. *)
Variable text_input : string -> num -> string.

(** [float(s)] on a text: the number it denotes, if it denotes one. *)
Variable parse : string -> option num.

Variable rk_45 : integrator.

(** [float(v)]. *)
Definition py_float (v : pyval) : outcome num :=
  match v with
  | Number x => Done x
  | Text s =>
      match parse s with
      | Some x => Done x
      | None => Fails (Exn ValueError)
      end
  end.

(** [for key in source: target[key] = st.sidebar.text_input(key,
    float(source[key]))].  With [source] the setup dictionary itself this is
    the first loop of the page; with [source = prop_ic] it is the second,
    which also stores into [prop_setup]. *)
Definition enter_fields (source : dict) (target : dict) : outcome dict :=
  for_each (keys source)
    (fun key d =>
       v <~ getitem source key ;;
       x <~ py_float v ;;
       Done (setitem d key (Text (text_input key x))))
    target.

(** The first loop reads the dictionary it updates. *)
Definition enter_setup (prop_setup : dict) : outcome dict :=
  for_each (keys prop_setup)
    (fun key d =>
       v <~ getitem d key ;;
       x <~ py_float v ;;
       Done (setitem d key (Text (text_input key x))))
    prop_setup.

(** [for key in d: d[key] = float(d[key])]. *)
Definition to_floats (d : dict) : outcome dict :=
  for_each (keys d)
    (fun key d' =>
       v <~ getitem d' key ;;
       x <~ py_float v ;;
       Done (setitem d' key (Number x)))
    d.

(** A dictionary value used as a number. *)
Definition as_number (v : pyval) : outcome num :=
  match v with
  | Number x => Done x
  | Text _ => Fails TypeError
  end.

Definition getnum (d : dict) (key : string) : outcome num :=
  v <~ getitem d key ;; as_number v.

(** [[d[key] for key in d]]. *)
Fixpoint values_of (d : dict) (ks : list string) : outcome (list num) :=
  match ks with
  | [] => Done []
  | key :: rest =>
      x <~ getnum d key ;;
      xs <~ values_of d rest ;;
      Done (x :: xs)
  end.

(** The page for one propagator, from the dictionaries to the propagator
    call; [pressed] is the 'Calculate' checkbox. *)
Definition propagator_page (o : prop_option) (pressed : bool)
  : outcome (option trajectory) :=
  let prop_ic := default_ic o in
  prop_setup <~ enter_setup (default_setup o) ;;
  prop_setup <~ enter_fields prop_ic prop_setup ;;
  if pressed then
    prop_setup <~ to_floats prop_setup ;;
    prop_ic <~ to_floats prop_ic ;;
    match o with
    | GeneralTwoBody =>
        t_init <~ getnum prop_setup "t_init" ;;
        t_final <~ getnum prop_setup "t_final" ;;
        mass_1 <~ getnum prop_setup "mass_1" ;;
        mass_2 <~ getnum prop_setup "mass_2" ;;
        initial_conditions <~ values_of prop_ic (keys prop_ic) ;;
        grav_constant <~ getnum prop_setup "grav_constant" ;;
        tolerance <~ getnum prop_setup "tolerance" ;;
        beta <~ getnum prop_setup "beta" ;;
        out <~ lift (two_body_propagator rk_45 t_init t_final mass_1 mass_2
                       initial_conditions grav_constant None tolerance beta) ;;
        Done (Some out)
    | CircularRestrictedThreeBody =>
        t_init <~ getnum prop_setup "t_init" ;;
        t_final <~ getnum prop_setup "t_final" ;;
        mass_1 <~ getnum prop_setup "mass_1" ;;
        mass_2 <~ getnum prop_setup "mass_2" ;;
        r_12 <~ getnum prop_setup "r_12" ;;
        initial_conditions <~ values_of prop_ic (keys prop_ic) ;;
        grav_constant <~ getnum prop_setup "grav_constant" ;;
        tolerance <~ getnum prop_setup "tolerance" ;;
        beta <~ getnum prop_setup "beta" ;;
        out <~ lift (three_body_cr_propagator rk_45 t_init t_final mass_1
                       mass_2 r_12 initial_conditions grav_constant None
                       tolerance beta) ;;
        Done (Some out)
    | GeneralThreeBody =>
        t_init <~ getnum prop_setup "t_init" ;;
        t_final <~ getnum prop_setup "t_final" ;;
        mass_1 <~ getnum prop_setup "mass_1" ;;
        mass_2 <~ getnum prop_setup "mass_2" ;;
        mass_3 <~ getnum prop_setup "mass_3" ;;
        initial_conditions <~ values_of prop_ic (keys prop_ic) ;;
        grav_constant <~ getnum prop_setup "grav_constant" ;;
        tolerance <~ getnum prop_setup "tolerance" ;;
        beta <~ getnum prop_setup "beta" ;;
        out <~ lift (three_body_propagator rk_45 t_init t_final mass_1 mass_2
                       mass_3 initial_conditions grav_constant None
                       tolerance beta) ;;
        Done (Some out)
    end
  else Done None.

End Page.

End OrbitTool.

Export OrbitTool.

(** ** The two-body closure on binary64 values *)

Module Binary64.

Import PrimFloat.
Local Open Scope float_scope.

(** [x ** n] for the literal exponents 2 and 3, by repeated
    multiplication.  It agrees with the C [pow] behind [**] wherever the
    product is exact or leaves the range of binary64 (0 ** n, a square that
    underflows to 0), which is all that is evaluated below. *)
Fixpoint power (x : float) (n : nat) : float :=
  match n with
  | O => 1
  | S O => x
  | S k => power x k * x
  end.

(** [differential_system(t, s)] of [two_body_propagator] with IEEE
    arithmetic: [+], [-], [*], [/] and [np.sqrt] are correctly rounded and
    raise nothing. *)
Definition two_body_differential_system (mu_1 mu_2 : float)
    (t : float) (s : list float) : result (list float) :=
  match s with
  | [x_1; y_1; z_1; vx_1; vy_1; vz_1; x_2; y_2; z_2; vx_2; vy_2; vz_2] =>
      let r := sqrt (power (x_2 - x_1) 2 + power (y_2 - y_1) 2
                     + power (z_2 - z_1) 2) in
      Ok [ vx_1;
           vy_1;
           vz_1;
           mu_2 * (x_2 - x_1) / power r 3;
           mu_2 * (y_2 - y_1) / power r 3;
           mu_2 * (z_2 - z_1) / power r 3;
           vx_2;
           vy_2;
           vz_2;
           mu_1 * (x_1 - x_2) / power r 3;
           mu_1 * (y_1 - y_2) / power r 3;
           mu_1 * (z_1 - z_2) / power r 3 ]
  | _ => Raise ValueError
  end.

(** The binary64 value of the Python literal [1e-200]. *)
Definition tiny : float := 0x1.87e92154ef7acp-665.

(** Body 1 at the origin, body 2 at (1e-200, 0, 0), both at rest. *)
Definition tiny_separation_state : list float :=
  [0; 0; 0; 0; 0; 0; tiny; 0; 0; 0; 0; 0].

Definition all_finite (d : list float) : bool := forallb is_finite d.

End Binary64.

(** * Properties *)

(** ** Arithmetic of the number domain *)

Lemma np_sqrt_sum_squares (a b c : R) :
  np_sqrt (Finite (a ^ 2 + b ^ 2 + c ^ 2)) = Finite (norm3 (a, b, c)).
Proof.
  unfold np_sqrt, norm3.
  destruct (Rlt_dec (a ^ 2 + b ^ 2 + c ^ 2) 0) as [Hneg | _]; [ | reflexivity].
  exfalso. nra.
Qed.

Lemma np_div_finite (x y : R) :
  y <> 0 -> (Finite x / Finite y)%num = Finite (x / y).
Proof.
  intro Hy. unfold np_div.
  destruct (Req_dec_T y 0) as [H0 | _]; [contradiction | reflexivity].
Qed.

Lemma np_div_by_zero (x y : R) :
  y = 0 -> (Finite x / Finite y)%num = NonFinite.
Proof.
  intro Hy. unfold np_div.
  destruct (Req_dec_T y 0) as [_ | Hn]; [reflexivity | contradiction].
Qed.

Lemma add_nonfinite_r (a : num) : (a + NonFinite)%num = NonFinite.
Proof. destruct a; reflexivity. Qed.

Lemma sub_nonfinite_r (a : num) : (a - NonFinite)%num = NonFinite.
Proof. destruct a; reflexivity. Qed.

Lemma is_zero_false (x : R) : x <> 0 -> is_zero (Finite x) = false.
Proof.
  intro Hx. unfold is_zero.
  destruct (Req_dec_T x 0) as [H0 | _]; [contradiction | reflexivity].
Qed.

Lemma is_zero_true (x : R) : x = 0 -> is_zero (Finite x) = true.
Proof.
  intro Hx. unfold is_zero.
  destruct (Req_dec_T x 0) as [_ | Hn]; [reflexivity | contradiction].
Qed.

Lemma cube_nonzero (r : R) : r <> 0 -> r ^ 3 <> 0.
Proof. intro Hr. apply pow_nonzero. exact Hr. Qed.

Lemma cube_zero (r : R) : r = 0 -> r ^ 3 = 0.
Proof. intros ->. ring. Qed.

(** ** Euclidean length *)

Lemma norm3_vsub_sym (p q : vec3) : norm3 (vsub p q) = norm3 (vsub q p).
Proof.
  destruct p as [[a b] c], q as [[d e] f]. cbn [vsub norm3].
  f_equal. ring.
Qed.

Lemma norm3_zero_iff (a b c : R) :
  norm3 (a, b, c) = 0 <-> a = 0 /\ b = 0 /\ c = 0.
Proof.
  cbn [norm3]. split.
  - intro H. apply sqrt_eq_0 in H; [ | nra]. repeat split; nra.
  - intros (-> & -> & ->). replace (0 ^ 2 + 0 ^ 2 + 0 ^ 2) with 0 by ring.
    apply sqrt_0.
Qed.

Lemma norm3_x_nonzero (a b c : R) : a <> 0 -> norm3 (a, b, c) <> 0.
Proof. intros Ha H. apply norm3_zero_iff in H. tauto. Qed.

Lemma norm3_z_nonzero (a b c : R) : c <> 0 -> norm3 (a, b, c) <> 0.
Proof. intros Hc H. apply norm3_zero_iff in H. tauto. Qed.

(** The distances to the primaries, as the code computes them. *)
Lemma distance_primary_1 (pi_2 r_12 x y z : R) :
  norm3 (vsub (x, y, z) (primary_1 pi_2 r_12)) = norm3 (x + pi_2 * r_12, y, z).
Proof. cbn [vsub primary_1 norm3]. f_equal. ring. Qed.

Lemma distance_primary_2 (pi_1 r_12 x y z : R) :
  norm3 (vsub (x, y, z) (primary_2 pi_1 r_12)) = norm3 (x - pi_1 * r_12, y, z).
Proof. cbn [vsub primary_2 norm3]. f_equal. ring. Qed.

(** ** Proof steps shared by the evaluation lemmas *)

(** Finite arithmetic, and the square roots of sums of squares. *)
Ltac num_eval :=
  cbn [add sub mul neg pow two fin map flat flat_map app];
  repeat rewrite np_sqrt_sum_squares;
  cbn [add sub mul neg pow two].

(** Divisions by the cube of a nonzero length. *)
Ltac finite_div :=
  repeat (rewrite np_div_finite by (apply cube_nonzero; assumption));
  cbn [add sub mul neg pow two].

(** Divisions by the cube of a zero length. *)
Ltac zero_div Hz :=
  repeat (rewrite (np_div_by_zero _ _ (cube_zero _ Hz)));
  cbn [add sub mul neg pow two];
  repeat rewrite add_nonfinite_r; repeat rewrite sub_nonfinite_r.

(** Unfold the specification's vector vocabulary. *)
Ltac spec_eval :=
  cbn [two_body_derivative three_body_derivative cr_derivative cr_acceleration
       kepler_derivative pull coriolis centrifugal_in_plane
       centrifugal_of_position primary_1 primary_2
       vadd vsub vscale fin flat flat_map map app].

(** Equality of two returned vectors, component by component. *)
Ltac components :=
  repeat match goal with
         | |- Ok _ = Ok _ => apply f_equal
         | |- _ :: _ = _ :: _ => apply f_equal2
         | |- Finite _ = Finite _ => apply f_equal
         end;
  try reflexivity.

(** ** The closures at a non-singular state: every division is by a nonzero
    cube, and the result is the code's formula read over the reals. *)

Lemma two_body_nonsingular (mu_1 mu_2 : R) (t : num)
    (x_1 y_1 z_1 vx_1 vy_1 vz_1 x_2 y_2 z_2 vx_2 vy_2 vz_2 : R) :
  let r := norm3 (x_2 - x_1, y_2 - y_1, z_2 - z_1) in
  r <> 0 ->
  two_body_differential_system (Finite mu_1) (Finite mu_2) t
    (fin [x_1; y_1; z_1; vx_1; vy_1; vz_1; x_2; y_2; z_2; vx_2; vy_2; vz_2])
  = Ok (fin [ vx_1; vy_1; vz_1;
              mu_2 * (x_2 - x_1) / r ^ 3;
              mu_2 * (y_2 - y_1) / r ^ 3;
              mu_2 * (z_2 - z_1) / r ^ 3;
              vx_2; vy_2; vz_2;
              mu_1 * (x_1 - x_2) / r ^ 3;
              mu_1 * (y_1 - y_2) / r ^ 3;
              mu_1 * (z_1 - z_2) / r ^ 3 ]).
Proof.
  intros r Hr. subst r. unfold two_body_differential_system.
  num_eval. finite_div. reflexivity.
Qed.

Lemma three_body_cr_nonsingular (mu_1 mu_2 pi_1 pi_2 omega r_12 : R) (t : num)
    (x y z v_x v_y v_z : R) :
  let r_1 := norm3 (x + pi_2 * r_12, y, z) in
  let r_2 := norm3 (x - pi_1 * r_12, y, z) in
  r_1 <> 0 -> r_2 <> 0 ->
  three_body_cr_differential_system (Finite mu_1) (Finite mu_2) (Finite pi_1)
    (Finite pi_2) (Finite omega) (Finite r_12) t (fin [x; y; z; v_x; v_y; v_z])
  = Ok (fin [ v_x; v_y; v_z;
              2 * omega * v_y + x * omega ^ 2
                - (mu_1 / r_1 ^ 3) * (x + pi_2 * r_12)
                - (mu_2 / r_2 ^ 3) * (x - pi_1 * r_12);
              (- 2) * omega * v_x + y * omega ^ 2
                - (mu_1 / r_1 ^ 3) * y - (mu_2 / r_2 ^ 3) * y;
              (- (mu_1 / r_1 ^ 3)) * z - (mu_2 / r_2 ^ 3) * z ]).
Proof.
  intros r_1 r_2 H1 H2. subst r_1 r_2.
  unfold three_body_cr_differential_system.
  num_eval. finite_div. reflexivity.
Qed.

Lemma three_body_nonsingular (mu_1 mu_2 mu_3 : R) (t : num)
    (x_1 y_1 z_1 vx_1 vy_1 vz_1 x_2 y_2 z_2 vx_2 vy_2 vz_2
     x_3 y_3 z_3 vx_3 vy_3 vz_3 : R) :
  let r_12 := norm3 (x_2 - x_1, y_2 - y_1, z_2 - z_1) in
  let r_13 := norm3 (x_3 - x_1, y_3 - y_1, z_3 - z_1) in
  let r_32 := norm3 (x_3 - x_2, y_3 - y_2, z_3 - z_2) in
  r_12 <> 0 -> r_13 <> 0 -> r_32 <> 0 ->
  three_body_differential_system (Finite mu_1) (Finite mu_2) (Finite mu_3) t
    (fin [x_1; y_1; z_1; vx_1; vy_1; vz_1; x_2; y_2; z_2; vx_2; vy_2; vz_2;
          x_3; y_3; z_3; vx_3; vy_3; vz_3])
  = Ok (fin [ vx_1; vy_1; vz_1;
              mu_2 * (x_2 - x_1) / r_12 ^ 3 + mu_3 * (x_3 - x_1) / r_13 ^ 3;
              mu_2 * (y_2 - y_1) / r_12 ^ 3 + mu_3 * (y_3 - y_1) / r_13 ^ 3;
              mu_2 * (z_2 - z_1) / r_12 ^ 3 + mu_3 * (z_3 - z_1) / r_13 ^ 3;
              vx_2; vy_2; vz_2;
              mu_1 * (x_1 - x_2) / r_12 ^ 3 + mu_3 * (x_3 - x_2) / r_32 ^ 3;
              mu_1 * (y_1 - y_2) / r_12 ^ 3 + mu_3 * (y_3 - y_2) / r_32 ^ 3;
              mu_1 * (z_1 - z_2) / r_12 ^ 3 + mu_3 * (z_3 - z_2) / r_32 ^ 3;
              vx_3; vy_3; vz_3;
              mu_1 * (x_1 - x_3) / r_13 ^ 3 + mu_2 * (x_2 - x_3) / r_32 ^ 3;
              mu_1 * (y_1 - y_3) / r_13 ^ 3 + mu_2 * (y_2 - y_3) / r_32 ^ 3;
              mu_1 * (z_1 - z_3) / r_13 ^ 3 + mu_2 * (z_2 - z_3) / r_32 ^ 3 ]).
Proof.
  intros r_12 r_13 r_32 H12 H13 H32. subst r_12 r_13 r_32.
  unfold three_body_differential_system.
  num_eval. finite_div. reflexivity.
Qed.

(** ** Propagators: input validation (C1) *)

(** C1, as stated, fails.  A two-body problem whose only defect is a
    negative mass (the state has 12 components, t_final > t_init,
    tolerance > 0, 0 < beta < 1) is not rejected: whatever [rk_45] is,
    [two_body_propagator] returns what [rk_45] returns on the closure and
    the unchanged arguments, and [rk_45] never sees the masses.  The same
    holds for [three_body_cr_propagator] with a negative mass and a
    negative r_12. *)
Lemma propagators_accept_negative_mass :
  valid_problem 12 sample_two_body_state
    (Finite 0) (Finite 480) (Finite 500) (Finite (4 / 5))
  /\ ~ valid_two_body (Finite 0) (Finite 480) (Finite (-1)) (Finite 1)
         sample_two_body_state (Finite 500) (Finite (4 / 5))
  /\ (forall rk_45 : integrator,
         two_body_propagator rk_45 (Finite 0) (Finite 480) (Finite (-1))
           (Finite 1) sample_two_body_state (Finite 1) None
           (Finite 500) (Finite (4 / 5))
         = rk_45 (two_body_differential_system
                    (Finite 1 * Finite (-1)) (Finite 1 * Finite 1))
             sample_two_body_state (Finite 0) (Finite 480) None
             (Finite 500) (Finite (4 / 5)))
  /\ ~ rejected_before_integration
         (fun rk_45 =>
            two_body_propagator rk_45 (Finite 0) (Finite 480) (Finite (-1))
              (Finite 1) sample_two_body_state (Finite 1) None
              (Finite 500) (Finite (4 / 5)))
  /\ ~ valid_three_body_cr (Finite 0) (Finite 480) (Finite (-1)) (Finite 3)
         (Finite (-2)) sample_restricted_state (Finite 500) (Finite (4 / 5))
  /\ ~ rejected_before_integration
         (fun rk_45 =>
            three_body_cr_propagator rk_45 (Finite 0) (Finite 480)
              (Finite (-1)) (Finite 3) (Finite (-2)) sample_restricted_state
              (Finite 1) None (Finite 500) (Finite (4 / 5))).
Proof.
  split; [ | split; [ | split; [ | split; [ | split]]]].
  - unfold valid_problem. cbn [lt]. repeat split; try lra.
  - intros [_ [Hm _]]. cbn [lt] in Hm. lra.
  - intro rk_45. reflexivity.
  - intros [e He].
    specialize (He (fun _ _ _ _ _ _ _ => Ok ([], []))).
    discriminate He.
  - intros [_ [Hm _]]. cbn [lt] in Hm. lra.
  - intros [e He].
    specialize (He (fun _ _ _ _ _ _ _ => Ok ([], []))).
    unfold three_body_cr_propagator, py_div in He. cbn [add mul pow] in He.
    rewrite !is_zero_false in He by lra. cbn [bind] in He.
    discriminate He.
Qed.

(** C1, amended: no propagator validates its inputs.  Whatever the
    arguments, [two_body_propagator] and [three_body_propagator] compute
    mu_i = G mass_i and return what [rk_45] returns on the closure and the
    unchanged initial state, times, step size, tolerance and beta.
    [three_body_cr_propagator] first computes its constants from the
    masses, r_12 and grav_constant alone (arithmetic that can raise), and
    then hands the initial state, the times, the step size, the tolerance
    and beta to [rk_45] unchanged: none of them is checked. *)
Theorem propagators_validate_nothing :
  (forall (rk_45 : integrator) t_init t_final mass_1 mass_2
          initial_conditions grav_constant step_size tolerance beta,
      two_body_propagator rk_45 t_init t_final mass_1 mass_2
        initial_conditions grav_constant step_size tolerance beta
      = rk_45 (two_body_differential_system
                 (grav_constant * mass_1) (grav_constant * mass_2))
          initial_conditions t_init t_final step_size tolerance beta)
  /\
  (forall (rk_45 : integrator) t_init t_final mass_1 mass_2 mass_3
          initial_conditions grav_constant step_size tolerance beta,
      three_body_propagator rk_45 t_init t_final mass_1 mass_2 mass_3
        initial_conditions grav_constant step_size tolerance beta
      = rk_45 (three_body_differential_system
                 (grav_constant * mass_1) (grav_constant * mass_2)
                 (grav_constant * mass_3))
          initial_conditions t_init t_final step_size tolerance beta)
  /\
  (forall mass_1 mass_2 r_12 grav_constant : num,
      exists closure : result derivative,
        forall (rk_45 : integrator) t_init t_final initial_conditions
               step_size tolerance beta,
          three_body_cr_propagator rk_45 t_init t_final mass_1 mass_2 r_12
            initial_conditions grav_constant step_size tolerance beta
          = (f <- closure ;;
             rk_45 f initial_conditions t_init t_final step_size
               tolerance beta)).
Proof.
  split; [ | split].
  - intros. reflexivity.
  - intros. reflexivity.
  - intros mass_1 mass_2 r_12 grav_constant.
    exists (pi_1 <- py_div mass_1 (mass_1 + mass_2) ;;
            pi_2 <- py_div mass_2 (mass_1 + mass_2) ;;
            q <- py_div (grav_constant * (mass_1 + mass_2)) (r_12 ** 3) ;;
            Ok (three_body_cr_differential_system
                  (grav_constant * mass_1) (grav_constant * mass_2)
                  pi_1 pi_2 (np_sqrt q) r_12)).
    intros. unfold three_body_cr_propagator.
    destruct (py_div mass_1 (mass_1 + mass_2)) as [pi_1 | e];
      cbn [bind]; [ | reflexivity].
    destruct (py_div mass_2 (mass_1 + mass_2)) as [pi_2 | e];
      cbn [bind]; [ | reflexivity].
    destruct (py_div (grav_constant * (mass_1 + mass_2)) (r_12 ** 3))
      as [q | e]; cbn [bind]; reflexivity.
Qed.

(** ** Singular states (C2) *)

(** C2, as stated, fails: with both bodies at the origin the separation is
    exactly zero, and the two-body derivative raises nothing; it returns a
    vector whose six acceleration components are 0 / 0, that is NaN. *)
Lemma two_body_collision_returns_nan :
  separations (TwoBody 1 1) [0; 0; 0; 0; 0; 0; 0; 0; 0; 0; 0; 0] = [0]
  /\ evaluate (TwoBody 1 1) (Finite 0)
       (fin [0; 0; 0; 0; 0; 0; 0; 0; 0; 0; 0; 0])
     = Ok [ Finite 0; Finite 0; Finite 0; NonFinite; NonFinite; NonFinite;
            Finite 0; Finite 0; Finite 0; NonFinite; NonFinite; NonFinite ].
Proof.
  assert (Hz : norm3 (0 - 0, 0 - 0, 0 - 0) = 0).
  { apply norm3_zero_iff. repeat split; ring. }
  split.
  - cbn [separations vsub]. rewrite Hz. reflexivity.
  - cbn [evaluate]. unfold two_body_differential_system.
    num_eval. zero_div Hz. reflexivity.
Qed.

(** C2, amended: for every variant, at a state of the variant's dimension
    where a required separation is exactly zero, the derivative function
    raises no error: it returns a vector of that dimension, and the vector
    has a non-finite (NaN or infinite) component. *)
Theorem evaluate_singular_returns_non_finite (m : force_model) (t : num)
    (s : list R) :
  length s = dimension m ->
  Exists (fun r => r = 0) (separations m s) ->
  exists d : state,
    evaluate m t (fin s) = Ok d /\ length d = dimension m /\ In NonFinite d.
Proof.
  intros Hlen Hsep.
  destruct m as [mu_1 mu_2 | mu_1 mu_2 pi_1 pi_2 omega r_12 | mu_1 mu_2 mu_3];
    cbn [dimension] in *;
    repeat (destruct s as [ | ? s]; try discriminate Hlen);
    cbn [separations] in Hsep; cbn [evaluate].
  - (* two bodies: r = 0 *)
    cbn [vsub] in Hsep.
    apply Exists_cons in Hsep as [Hz | Hnil]; [ | inversion Hnil].
    unfold two_body_differential_system. num_eval. zero_div Hz.
    eexists. split; [reflexivity | ]. split; [reflexivity | ].
    cbn [In]. tauto.
  - (* restricted: r_1 = 0 or r_2 = 0 *)
    rewrite distance_primary_1, distance_primary_2 in Hsep.
    unfold three_body_cr_differential_system. num_eval.
    apply Exists_cons in Hsep as [Hz | Hsep].
    + zero_div Hz.
      eexists. split; [reflexivity | ]. split; [reflexivity | ].
      cbn [In]. tauto.
    + apply Exists_cons in Hsep as [Hz | Hnil]; [ | inversion Hnil].
      zero_div Hz.
      eexists. split; [reflexivity | ]. split; [reflexivity | ].
      cbn [In]. tauto.
  - (* three bodies: r_12 = 0, r_13 = 0 or r_32 = 0 *)
    cbn [vsub] in Hsep.
    unfold three_body_differential_system. num_eval.
    apply Exists_cons in Hsep as [Hz | Hsep].
    + zero_div Hz.
      eexists. split; [reflexivity | ]. split; [reflexivity | ].
      cbn [In]. tauto.
    + apply Exists_cons in Hsep as [Hz | Hsep].
      * zero_div Hz.
        eexists. split; [reflexivity | ]. split; [reflexivity | ].
        cbn [In]. tauto.
      * apply Exists_cons in Hsep as [Hz | Hnil]; [ | inversion Hnil].
        zero_div Hz.
        eexists. split; [reflexivity | ]. split; [reflexivity | ].
        cbn [In]. tauto.
Qed.

Lemma evaluate_singular_returns_non_finite_witness :
  exists d : state,
    evaluate (TwoBody 1 1) (Finite 0)
      (fin [0; 0; 0; 0; 0; 0; 0; 0; 0; 0; 0; 0]) = Ok d
    /\ length d = 12%nat /\ In NonFinite d.
Proof.
  apply (evaluate_singular_returns_non_finite (TwoBody 1 1) (Finite 0)
           [0; 0; 0; 0; 0; 0; 0; 0; 0; 0; 0; 0]).
  - reflexivity.
  - apply Exists_cons_hd. apply norm3_zero_iff. repeat split; ring.
Defined.

(** ** The three vector fields (C3, C4, C5) *)

(** C3: for every two-body state [pos1, vel1, pos2, vel2] with nonzero
    separation r = |pos2 - pos1|, the derivative built by
    [two_body_propagator] (mu_i = grav_constant mass_i) is
    [vel1, mu_2 (pos2 - pos1) / r^3, vel2, mu_1 (pos1 - pos2) / r^3]. *)
Theorem two_body_derivative_correct (grav_constant mass_1 mass_2 : R)
    (t : num) (p1 v1 p2 v2 : vec3) :
  norm3 (vsub p2 p1) <> 0 ->
  two_body_differential_system
    (Finite grav_constant * Finite mass_1) (Finite grav_constant * Finite mass_2)
    t (fin (flat [p1; v1; p2; v2]))
  = Ok (fin (two_body_derivative (grav_constant * mass_1)
               (grav_constant * mass_2) p1 v1 p2 v2)).
Proof.
  intros Hr.
  unfold two_body_derivative, pull.
  rewrite (norm3_vsub_sym p1 p2).
  destruct p1 as [[x_1 y_1] z_1], v1 as [[vx_1 vy_1] vz_1],
           p2 as [[x_2 y_2] z_2], v2 as [[vx_2 vy_2] vz_2].
  cbn [vsub] in Hr. cbn [mul flat flat_map app].
  rewrite two_body_nonsingular by exact Hr.
  spec_eval. components; field; exact Hr.
Qed.

Lemma two_body_derivative_correct_witness :
  norm3 (vsub (3000, 0, 0) (0, 0, 0)) <> 0 /\
  two_body_differential_system (Finite 1 * Finite 2) (Finite 1 * Finite 3)
    (Finite 0) (fin (flat [(0, 0, 0); (10, 20, 30); (3000, 0, 0); (0, 40, 0)]))
  = Ok (fin (two_body_derivative (1 * 2) (1 * 3)
               (0, 0, 0) (10, 20, 30) (3000, 0, 0) (0, 40, 0))).
Proof.
  assert (Hr : norm3 (vsub (3000, 0, 0) (0, 0, 0)) <> 0).
  { cbn [vsub]. apply norm3_x_nonzero. lra. }
  split; [exact Hr | ].
  apply (two_body_derivative_correct 1 2 3 (Finite 0)
           (0, 0, 0) (10, 20, 30) (3000, 0, 0) (0, 40, 0) Hr).
Defined.

(** C4, as stated, fails in the z component: the code adds no centrifugal
    term z omega^2 there.  With omega = 1 and the third body at (0, 0, 1),
    both primary distances are nonzero and the derivative differs from
    "position omega^2 + Coriolis - pulls". *)
Lemma cr_no_centrifugal_term_along_z :
  norm3 (vsub (0, 0, 1) (primary_1 0 1)) <> 0 /\
  norm3 (vsub (0, 0, 1) (primary_2 1 1)) <> 0 /\
  three_body_cr_differential_system (Finite 1) (Finite 0) (Finite 1) (Finite 0)
    (Finite 1) (Finite 1) (Finite 0) (fin (flat [(0, 0, 1); (0, 0, 0)]))
  <> Ok (fin (cr_derivative centrifugal_of_position 1 0 1 0 1 1
                (0, 0, 1) (0, 0, 0))).
Proof.
  assert (H1 : norm3 (0 + 0 * 1, 0, 1) <> 0) by (apply norm3_z_nonzero; lra).
  assert (H2 : norm3 (0 - 1 * 1, 0, 1) <> 0) by (apply norm3_z_nonzero; lra).
  rewrite distance_primary_1, distance_primary_2.
  split; [exact H1 | ]. split; [exact H2 | ].
  cbn [flat flat_map app].
  rewrite three_body_cr_nonsingular by assumption.
  unfold cr_derivative, cr_acceleration.
  rewrite distance_primary_1, distance_primary_2.
  spec_eval. intro Heq.
  injection Heq as _ _ Hz. lra.
Qed.

(** C4, amended: for every state [pos, vel] of the restricted model with
    both primary distances nonzero, the acceleration is the centrifugal term
    omega^2 (x, y, 0), which acts in the plane of rotation only, plus the
    Coriolis term (+2 omega v_y in x, -2 omega v_x in y), minus the pulls
    toward the primaries at x = -pi_2 r_12 and x = +pi_1 r_12 scaled by
    mu_i / r_i^3. *)
Theorem cr_derivative_correct (mu_1 mu_2 pi_1 pi_2 omega r_12 : R) (t : num)
    (p v : vec3) :
  norm3 (vsub p (primary_1 pi_2 r_12)) <> 0 ->
  norm3 (vsub p (primary_2 pi_1 r_12)) <> 0 ->
  three_body_cr_differential_system (Finite mu_1) (Finite mu_2) (Finite pi_1)
    (Finite pi_2) (Finite omega) (Finite r_12) t (fin (flat [p; v]))
  = Ok (fin (cr_derivative centrifugal_in_plane mu_1 mu_2 pi_1 pi_2 omega r_12
               p v)).
Proof.
  destruct p as [[x y] z], v as [[v_x v_y] v_z].
  unfold cr_derivative, cr_acceleration.
  rewrite distance_primary_1, distance_primary_2. intros H1 H2.
  cbn [flat flat_map app].
  rewrite three_body_cr_nonsingular by assumption.
  spec_eval. components; field; repeat split; assumption.
Qed.

Lemma cr_derivative_correct_witness :
  three_body_cr_differential_system (Finite 1) (Finite 0) (Finite 1) (Finite 0)
    (Finite 1) (Finite 1) (Finite 0) (fin (flat [(0, 0, 1); (0, 0, 0)]))
  = Ok (fin (cr_derivative centrifugal_in_plane 1 0 1 0 1 1
               (0, 0, 1) (0, 0, 0))).
Proof.
  apply (cr_derivative_correct 1 0 1 0 1 1 (Finite 0) (0, 0, 1) (0, 0, 0)).
  - rewrite distance_primary_1. apply norm3_z_nonzero. lra.
  - rewrite distance_primary_2. apply norm3_z_nonzero. lra.
Defined.

(** C5: for every general three-body state with the three pairwise
    separations nonzero, each body's acceleration is the sum of the pulls
    mu_j (pos_j - pos_i) / |pos_j - pos_i|^3 of the other two bodies; the
    separation the code computes once per pair (r_12, r_13, r_32) is the
    length seen from either end. *)
Theorem three_body_derivative_correct (mu_1 mu_2 mu_3 : R) (t : num)
    (p1 v1 p2 v2 p3 v3 : vec3) :
  norm3 (vsub p2 p1) <> 0 ->
  norm3 (vsub p3 p1) <> 0 ->
  norm3 (vsub p3 p2) <> 0 ->
  three_body_differential_system (Finite mu_1) (Finite mu_2) (Finite mu_3) t
    (fin (flat [p1; v1; p2; v2; p3; v3]))
  = Ok (fin (three_body_derivative mu_1 mu_2 mu_3 p1 v1 p2 v2 p3 v3)).
Proof.
  intros H12 H13 H32.
  unfold three_body_derivative, pull.
  rewrite (norm3_vsub_sym p1 p2), (norm3_vsub_sym p1 p3),
    (norm3_vsub_sym p2 p3).
  destruct p1 as [[x_1 y_1] z_1], v1 as [[vx_1 vy_1] vz_1],
           p2 as [[x_2 y_2] z_2], v2 as [[vx_2 vy_2] vz_2],
           p3 as [[x_3 y_3] z_3], v3 as [[vx_3 vy_3] vz_3].
  cbn [vsub] in H12, H13, H32. cbn [flat flat_map app].
  rewrite three_body_nonsingular by assumption.
  spec_eval. components; field; repeat split; assumption.
Qed.

Lemma three_body_derivative_correct_witness :
  three_body_differential_system (Finite 1) (Finite 1) (Finite 1) (Finite 0)
    (fin (flat [(-1, 0, 0); (0, 0, 0); (1, 0, 0); (0, 0, 0);
                (0, 0, 0); (0, 0, 0)]))
  = Ok (fin (three_body_derivative 1 1 1 (-1, 0, 0) (0, 0, 0) (1, 0, 0)
               (0, 0, 0) (0, 0, 0) (0, 0, 0))).
Proof.
  apply (three_body_derivative_correct 1 1 1 (Finite 0)
           (-1, 0, 0) (0, 0, 0) (1, 0, 0) (0, 0, 0) (0, 0, 0) (0, 0, 0));
    cbn [vsub]; apply norm3_x_nonzero; lra.
Defined.

(** ** Shape and finiteness of the result (C6) *)

(** C6, as stated, fails in binary64.  With body 1 at the origin and body
    2 at (1e-200, 0, 0) the separation is nonzero, but its square underflows
    to 0: r = 0, and the two-body derivative, a vector of length 12, holds
    +Inf, NaN, NaN and -Inf, NaN, NaN in its acceleration slots. *)
Lemma two_body_tiny_separation_not_finite :
  length Binary64.tiny_separation_state = 12%nat
  /\ PrimFloat.eqb
       (PrimFloat.sub (nth 6 Binary64.tiny_separation_state PrimFloat.zero)
                      (nth 0 Binary64.tiny_separation_state PrimFloat.zero))
       PrimFloat.zero = false
  /\ Binary64.two_body_differential_system PrimFloat.one PrimFloat.one
       PrimFloat.zero Binary64.tiny_separation_state
     = Ok [ PrimFloat.zero; PrimFloat.zero; PrimFloat.zero;
            PrimFloat.infinity; PrimFloat.nan; PrimFloat.nan;
            PrimFloat.zero; PrimFloat.zero; PrimFloat.zero;
            PrimFloat.neg_infinity; PrimFloat.nan; PrimFloat.nan ]
  /\ Binary64.all_finite
       [ PrimFloat.zero; PrimFloat.zero; PrimFloat.zero;
         PrimFloat.infinity; PrimFloat.nan; PrimFloat.nan;
         PrimFloat.zero; PrimFloat.zero; PrimFloat.zero;
         PrimFloat.neg_infinity; PrimFloat.nan; PrimFloat.nan ] = false.
Proof.
  split; [reflexivity | ].
  split; [vm_compute; reflexivity | ].
  split; vm_compute; reflexivity.
Qed.

(** C6, amended: for each variant with finite constants, every time t and
    every state of the variant's dimension whose required separations are
    all nonzero, the derivative function returns a vector of that dimension,
    and in exact arithmetic (no rounding, overflow or underflow) all its
    components are finite. *)
Theorem evaluate_dimension_and_finite (m : force_model) (t : num)
    (s : list R) :
  length s = dimension m ->
  Forall (fun r => r <> 0) (separations m s) ->
  exists d : state,
    evaluate m t (fin s) = Ok d /\ length d = dimension m /\
    Forall is_finite d.
Proof.
  intros Hlen Hsep.
  destruct m as [mu_1 mu_2 | mu_1 mu_2 pi_1 pi_2 omega r_12 | mu_1 mu_2 mu_3];
    cbn [dimension] in *;
    repeat (destruct s as [ | ? s]; try discriminate Hlen);
    cbn [separations] in Hsep; cbn [evaluate].
  - cbn [vsub] in Hsep. inversion_clear Hsep as [ | ? ? Hr _].
    rewrite two_body_nonsingular by exact Hr.
    eexists. split; [reflexivity | ]. split; [reflexivity | ].
    cbn [fin map]. repeat constructor.
  - rewrite distance_primary_1, distance_primary_2 in Hsep.
    inversion_clear Hsep as [ | ? ? H1 Hsep']. inversion_clear Hsep' as [ | ? ? H2 _].
    rewrite three_body_cr_nonsingular by assumption.
    eexists. split; [reflexivity | ]. split; [reflexivity | ].
    cbn [fin map]. repeat constructor.
  - cbn [vsub] in Hsep.
    inversion_clear Hsep as [ | ? ? H12 Hsep']. inversion_clear Hsep' as [ | ? ? H13 Hsep''].
    inversion_clear Hsep'' as [ | ? ? H32 _].
    rewrite three_body_nonsingular by assumption.
    eexists. split; [reflexivity | ]. split; [reflexivity | ].
    cbn [fin map]. repeat constructor.
Qed.

Lemma evaluate_dimension_and_finite_witness :
  exists d : state,
    evaluate (RestrictedThreeBody 1 1 (1 / 2) (1 / 2) 1 2) (Finite 0)
      (fin [0; 1; 0; 0; 0; 0]) = Ok d
    /\ length d = 6%nat /\ Forall is_finite d.
Proof.
  apply (evaluate_dimension_and_finite
           (RestrictedThreeBody 1 1 (1 / 2) (1 / 2) 1 2) (Finite 0)
           [0; 1; 0; 0; 0; 0]).
  - reflexivity.
  - cbn [separations]. rewrite distance_primary_1, distance_primary_2.
    repeat constructor; apply norm3_x_nonzero; lra.
Defined.

(** ** Linear momentum of the two-body field *)

(** X23: in exact arithmetic, at every two-body state with nonzero
    separation, the derivative built for masses mass_1, mass_2 satisfies
    mass_1 accel_1 + mass_2 accel_2 = 0 in each of the three components: the
    force model itself gives the total linear momentum
    mass_1 vel_1 + mass_2 vel_2 a zero rate of change.  (What an integrator
    and binary64 rounding make of it over a run, the subject of C7, is not
    stated here.) *)
Theorem two_body_momentum_rate_zero (grav_constant mass_1 mass_2 : R)
    (t : num) (p1 v1 p2 v2 : vec3) :
  norm3 (vsub p2 p1) <> 0 ->
  exists d : state,
    two_body_differential_system
      (Finite grav_constant * Finite mass_1)
      (Finite grav_constant * Finite mass_2)
      t (fin (flat [p1; v1; p2; v2])) = Ok d
    /\ linear_momentum (Finite mass_1) (Finite mass_2) d
       = [Finite 0; Finite 0; Finite 0].
Proof.
  destruct p1 as [[x_1 y_1] z_1], v1 as [[vx_1 vy_1] vz_1],
           p2 as [[x_2 y_2] z_2], v2 as [[vx_2 vy_2] vz_2].
  cbn [vsub]. intros Hr. cbn [mul flat flat_map app].
  rewrite two_body_nonsingular by exact Hr.
  eexists. split; [reflexivity | ].
  cbn [fin map linear_momentum add mul].
  components; field; exact Hr.
Qed.

Lemma two_body_momentum_rate_zero_witness :
  exists d : state,
    two_body_differential_system (Finite 1 * Finite 2) (Finite 1 * Finite 3)
      (Finite 0)
      (fin (flat [(0, 0, 0); (10, 20, 30); (3000, 0, 0); (0, 40, 0)])) = Ok d
    /\ linear_momentum (Finite 2) (Finite 3) d
       = [Finite 0; Finite 0; Finite 0].
Proof.
  apply (two_body_momentum_rate_zero 1 2 3 (Finite 0)
           (0, 0, 0) (10, 20, 30) (3000, 0, 0) (0, 40, 0)).
  cbn [vsub]. apply norm3_x_nonzero. lra.
Defined.

(** ** Reductions between the models (C8, C9) *)

(** C8, as stated, fails: with omega = 0, pi_2 = 0 and mu_2 = 0 the code
    still divides mu_2 by the cube of the distance to the second primary's
    place, x = pi_1 r_12.  There the distance to the remaining primary is
    nonzero, yet the accelerations are 0 / 0 and not Keplerian. *)
Lemma cr_not_keplerian_at_second_primary :
  norm3 (1, 0, 0) <> 0 /\
  three_body_cr_differential_system (Finite 1) (Finite 0) (Finite 1) (Finite 0)
    (Finite 0) (Finite 1) (Finite 0) (fin (flat [(1, 0, 0); (0, 0, 0)]))
  = Ok [Finite 0; Finite 0; Finite 0; NonFinite; NonFinite; NonFinite] /\
  three_body_cr_differential_system (Finite 1) (Finite 0) (Finite 1) (Finite 0)
    (Finite 0) (Finite 1) (Finite 0) (fin (flat [(1, 0, 0); (0, 0, 0)]))
  <> Ok (fin (kepler_derivative 1 (1, 0, 0) (0, 0, 0))).
Proof.
  assert (Hz : norm3 (1 - 1 * 1, 0, 0) = 0).
  { apply norm3_zero_iff. repeat split; ring. }
  assert (Hev :
    three_body_cr_differential_system (Finite 1) (Finite 0) (Finite 1)
      (Finite 0) (Finite 0) (Finite 1) (Finite 0)
      (fin (flat [(1, 0, 0); (0, 0, 0)]))
    = Ok [Finite 0; Finite 0; Finite 0; NonFinite; NonFinite; NonFinite]).
  { unfold three_body_cr_differential_system. num_eval. zero_div Hz.
    reflexivity. }
  split; [apply norm3_x_nonzero; lra | ].
  split; [exact Hev | ].
  rewrite Hev. spec_eval. intro Heq. discriminate Heq.
Qed.

(** C8, amended: with omega = 0, pi_2 = 0 and mu_2 = 0, for every state
    with nonzero distance to the remaining primary (at the origin) and
    nonzero distance to the second primary's place x = pi_1 r_12, the
    restricted derivative is the Keplerian one, [v, -mu_1 pos / |pos|^3]. *)
Theorem cr_reduces_to_kepler (mu_1 pi_1 r_12 : R) (t : num) (p v : vec3) :
  norm3 p <> 0 ->
  norm3 (vsub p (primary_2 pi_1 r_12)) <> 0 ->
  three_body_cr_differential_system (Finite mu_1) (Finite 0) (Finite pi_1)
    (Finite 0) (Finite 0) (Finite r_12) t (fin (flat [p; v]))
  = Ok (fin (kepler_derivative mu_1 p v)).
Proof.
  destruct p as [[x y] z], v as [[v_x v_y] v_z].
  rewrite distance_primary_2. intros Hp H2.
  assert (Hx : x + 0 * r_12 = x) by ring.
  assert (H1 : norm3 (x + 0 * r_12, y, z) <> 0) by (rewrite Hx; exact Hp).
  cbn [flat flat_map app].
  rewrite three_body_cr_nonsingular by assumption.
  rewrite Hx. spec_eval. components; field; repeat split; assumption.
Qed.

Lemma cr_reduces_to_kepler_witness :
  three_body_cr_differential_system (Finite 1) (Finite 0) (Finite 1) (Finite 0)
    (Finite 0) (Finite 1) (Finite 0) (fin (flat [(2, 0, 0); (0, 1, 0)]))
  = Ok (fin (kepler_derivative 1 (2, 0, 0) (0, 1, 0))).
Proof.
  apply (cr_reduces_to_kepler 1 1 1 (Finite 0) (2, 0, 0) (0, 1, 0)).
  - apply norm3_x_nonzero. lra.
  - rewrite distance_primary_2. apply norm3_x_nonzero. lra.
Defined.

(** C9: when mass_3 = 0, for every 18-component state whose three pairwise
    separations are nonzero, the first 12 components of the general
    three-body derivative are the two-body derivative at
    [pos1, vel1, pos2, vel2] for the same mass_1, mass_2 and grav_constant. *)
Theorem three_body_massless_third_is_two_body
    (grav_constant mass_1 mass_2 : R) (t : num) (p1 v1 p2 v2 p3 v3 : vec3) :
  norm3 (vsub p2 p1) <> 0 ->
  norm3 (vsub p3 p1) <> 0 ->
  norm3 (vsub p3 p2) <> 0 ->
  exists d : state,
    three_body_differential_system
      (Finite grav_constant * Finite mass_1)
      (Finite grav_constant * Finite mass_2)
      (Finite grav_constant * Finite 0)
      t (fin (flat [p1; v1; p2; v2; p3; v3])) = Ok d
    /\ two_body_differential_system
         (Finite grav_constant * Finite mass_1)
         (Finite grav_constant * Finite mass_2)
         t (fin (flat [p1; v1; p2; v2])) = Ok (firstn 12 d).
Proof.
  destruct p1 as [[x_1 y_1] z_1], v1 as [[vx_1 vy_1] vz_1],
           p2 as [[x_2 y_2] z_2], v2 as [[vx_2 vy_2] vz_2],
           p3 as [[x_3 y_3] z_3], v3 as [[vx_3 vy_3] vz_3].
  cbn [vsub]. intros H12 H13 H32. cbn [mul flat flat_map app].
  rewrite three_body_nonsingular by assumption.
  rewrite two_body_nonsingular by assumption.
  eexists. split; [reflexivity | ].
  cbn [fin map firstn].
  components; field; repeat split; assumption.
Qed.

Lemma three_body_massless_third_is_two_body_witness :
  exists d : state,
    three_body_differential_system
      (Finite 1 * Finite 2) (Finite 1 * Finite 3) (Finite 1 * Finite 0)
      (Finite 0)
      (fin (flat [(-1, 0, 0); (0, 0, 0); (1, 0, 0); (0, 0, 0);
                  (0, 0, 0); (0, 0, 0)])) = Ok d
    /\ two_body_differential_system (Finite 1 * Finite 2) (Finite 1 * Finite 3)
         (Finite 0)
         (fin (flat [(-1, 0, 0); (0, 0, 0); (1, 0, 0); (0, 0, 0)]))
       = Ok (firstn 12 d).
Proof.
  apply (three_body_massless_third_is_two_body 1 2 3 (Finite 0)
           (-1, 0, 0) (0, 0, 0) (1, 0, 0) (0, 0, 0) (0, 0, 0) (0, 0, 0));
    cbn [vsub]; apply norm3_x_nonzero; lra.
Defined.

(** ** The plane z = 0, v_z = 0 of the restricted model (C10) *)

(** C10: for every state of the restricted model with z = 0, v_z = 0 and
    both primary distances nonzero, the derivative has zero z-rate
    (component 2) and zero z-acceleration (component 5). *)
Theorem cr_plane_invariant (mu_1 mu_2 pi_1 pi_2 omega r_12 : R) (t : num)
    (x y v_x v_y : R) :
  norm3 (vsub (x, y, 0) (primary_1 pi_2 r_12)) <> 0 ->
  norm3 (vsub (x, y, 0) (primary_2 pi_1 r_12)) <> 0 ->
  exists d : state,
    three_body_cr_differential_system (Finite mu_1) (Finite mu_2) (Finite pi_1)
      (Finite pi_2) (Finite omega) (Finite r_12) t
      (fin [x; y; 0; v_x; v_y; 0]) = Ok d
    /\ nth 2 d NonFinite = Finite 0 /\ nth 5 d NonFinite = Finite 0.
Proof.
  rewrite distance_primary_1, distance_primary_2. intros H1 H2.
  rewrite three_body_cr_nonsingular by assumption.
  eexists. split; [reflexivity | ].
  cbn [fin map nth]. split; [reflexivity | ].
  apply f_equal. ring.
Qed.

Lemma cr_plane_invariant_witness :
  exists d : state,
    three_body_cr_differential_system (Finite 1) (Finite 1) (Finite (1 / 2))
      (Finite (1 / 2)) (Finite 1) (Finite 2) (Finite 0)
      (fin [0; 1; 0; 3; 4; 0]) = Ok d
    /\ nth 2 d NonFinite = Finite 0 /\ nth 5 d NonFinite = Finite 0.
Proof.
  apply (cr_plane_invariant 1 1 (1 / 2) (1 / 2) 1 2 (Finite 0) 0 1 3 4).
  - rewrite distance_primary_1. apply norm3_x_nonzero. lra.
  - rewrite distance_primary_2. apply norm3_x_nonzero. lra.
Defined.

(** * Further properties of the code *)

(** ** More arithmetic of the number domain *)

Lemma finite_add (x y : R) : (Finite x + Finite y)%num = Finite (x + y).
Proof. reflexivity. Qed.

Lemma finite_sub (x y : R) : (Finite x - Finite y)%num = Finite (x - y).
Proof. reflexivity. Qed.

Lemma finite_mul (x y : R) : (Finite x * Finite y)%num = Finite (x * y).
Proof. reflexivity. Qed.

Lemma finite_pow (x : R) (n : nat) : (Finite x ** n)%num = Finite (x ^ n).
Proof. reflexivity. Qed.

Lemma mul_nonfinite_r (a : num) : (a * NonFinite)%num = NonFinite.
Proof. destruct a; reflexivity. Qed.

Lemma np_sqrt_nonneg (x : R) : 0 <= x -> np_sqrt (Finite x) = Finite (sqrt x).
Proof.
  intro Hx. unfold np_sqrt.
  destruct (Rlt_dec x 0) as [Hneg | _]; [lra | reflexivity].
Qed.

Lemma np_sqrt_negative (x : R) : x < 0 -> np_sqrt (Finite x) = NonFinite.
Proof.
  intro Hx. unfold np_sqrt.
  destruct (Rlt_dec x 0) as [_ | Hge]; [reflexivity | lra].
Qed.

Lemma np_tan_finite (x : R) : cos x <> 0 -> np_tan (Finite x) = Finite (tan x).
Proof.
  intro Hc. unfold np_tan.
  destruct (Req_dec_T (cos x) 0) as [H0 | _]; [contradiction | reflexivity].
Qed.

Lemma py_div_finite (x y : R) :
  y <> 0 -> py_div (Finite x) (Finite y) = Ok (Finite (x / y)).
Proof.
  intro Hy. unfold py_div.
  rewrite is_zero_false by exact Hy. rewrite np_div_finite by exact Hy.
  reflexivity.
Qed.

Lemma square_nonzero (x : R) : x <> 0 -> x ^ 2 <> 0.
Proof. intro Hx. apply pow_nonzero. exact Hx. Qed.

Lemma two_pi_nonzero : 2 * PI <> 0.
Proof. pose proof PI_RGT_0. lra. Qed.

Lemma shift_cancel (q p a : R) : q + a - (p + a) = q - p.
Proof. ring. Qed.

Lemma norm3_flip (a b c d e f : R) :
  norm3 (a - d, b - e, c - f) = norm3 (d - a, e - b, f - c).
Proof. cbn [norm3]. f_equal. ring. Qed.

Lemma norm3_neg_y (a b c : R) : norm3 (a, - b, c) = norm3 (a, b, c).
Proof. cbn [norm3]. f_equal. ring. Qed.

Lemma norm3_neg_z (a b c : R) : norm3 (a, b, - c) = norm3 (a, b, c).
Proof. cbn [norm3]. f_equal. ring. Qed.

Lemma sqrt3_sq : sqrt 3 ^ 2 = 3.
Proof. rewrite <- Rsqr_pow2. apply Rsqr_sqrt. lra. Qed.

Lemma norm3_equilateral (r s : R) :
  0 < r -> s ^ 2 = 1 ->
  norm3 (s * (r / 2), sqrt 3 / 2 * r, 0) = r.
Proof.
  intros Hr Hs. cbn [norm3].
  replace ((s * (r / 2)) ^ 2 + (sqrt 3 / 2 * r) ^ 2 + 0 ^ 2) with (r ^ 2).
  - rewrite <- Rsqr_pow2. apply sqrt_Rsqr. lra.
  - replace ((s * (r / 2)) ^ 2) with (s ^ 2 * (r ^ 2 / 4)) by field.
    replace ((sqrt 3 / 2 * r) ^ 2) with (sqrt 3 ^ 2 * (r ^ 2 / 4)) by field.
    rewrite Hs, sqrt3_sq. field.
Qed.

(** Arithmetic on finite operands only; other operations are left alone. *)
Ltac finite_arith :=
  repeat first [ rewrite finite_add | rewrite finite_sub | rewrite finite_mul
               | rewrite finite_pow ].

(** Case analysis on the length of a state. *)
Ltac by_length :=
  cbn [length];
  repeat split;
  try (intros; first [discriminate | congruence | lia ]).

(** ** The closures on states of any shape *)

(** X1: for every variant, the derivative function raises ValueError
    exactly when the state does not have the variant's dimension (the
    unpacking on its first line), and a vector it returns has the length of
    the state, whatever the values in it (finite or not, singular or not). *)
Theorem evaluate_value_error_iff (m : force_model) (t : num) (s : state) :
  (evaluate m t s = Raise ValueError <-> length s <> dimension m) /\
  (forall d, evaluate m t s = Ok d -> length d = length s).
Proof.
  destruct m as [mu_1 mu_2 | mu_1 mu_2 pi_1 pi_2 omega r_12 | mu_1 mu_2 mu_3];
    cbn [evaluate dimension].
  - unfold two_body_differential_system.
    do 13 (destruct s as [ | ? s];
           [by_length; intros d H; injection H as <-; reflexivity | ]).
    by_length.
  - unfold three_body_cr_differential_system.
    do 7 (destruct s as [ | ? s];
          [by_length; intros d H; injection H as <-; reflexivity | ]).
    by_length.
  - unfold three_body_differential_system.
    do 19 (destruct s as [ | ? s];
           [by_length; intros d H; injection H as <-; reflexivity | ]).
    by_length.
Qed.

(** ** Symmetries of the inertial fields *)

(** X2: the two-body field is Galilean invariant.  Moving both bodies by
    the same vector [a] and adding the same velocity [u] to both leaves the
    six acceleration components unchanged (also at a singular state) and
    the position rates are the new velocities. *)
Theorem two_body_galilean_invariant (mu_1 mu_2 : R) (t : num)
    (p1 v1 p2 v2 a u : vec3) :
  exists d d' : state,
    two_body_differential_system (Finite mu_1) (Finite mu_2) t
      (fin (flat [p1; v1; p2; v2])) = Ok d /\
    two_body_differential_system (Finite mu_1) (Finite mu_2) t
      (fin (flat [vadd p1 a; vadd v1 u; vadd p2 a; vadd v2 u])) = Ok d' /\
    firstn 3 d' = fin (flat [vadd v1 u]) /\
    firstn 3 (skipn 6 d') = fin (flat [vadd v2 u]) /\
    firstn 3 (skipn 3 d') = firstn 3 (skipn 3 d) /\
    skipn 9 d' = skipn 9 d.
Proof.
  destruct p1 as [[x_1 y_1] z_1], v1 as [[vx_1 vy_1] vz_1],
           p2 as [[x_2 y_2] z_2], v2 as [[vx_2 vy_2] vz_2],
           a as [[a_x a_y] a_z], u as [[u_x u_y] u_z].
  unfold two_body_differential_system. spec_eval. num_eval.
  rewrite !shift_cancel.
  eexists. eexists. split; [reflexivity | ]. split; [reflexivity | ].
  cbn [firstn skipn]. repeat split.
Qed.

(** X3: the general three-body field is Galilean invariant in the same
    sense: a common shift of the positions and a common boost of the
    velocities leave the nine acceleration components unchanged. *)
Theorem three_body_galilean_invariant (mu_1 mu_2 mu_3 : R) (t : num)
    (p1 v1 p2 v2 p3 v3 a u : vec3) :
  exists d d' : state,
    three_body_differential_system (Finite mu_1) (Finite mu_2) (Finite mu_3) t
      (fin (flat [p1; v1; p2; v2; p3; v3])) = Ok d /\
    three_body_differential_system (Finite mu_1) (Finite mu_2) (Finite mu_3) t
      (fin (flat [vadd p1 a; vadd v1 u; vadd p2 a; vadd v2 u;
                  vadd p3 a; vadd v3 u])) = Ok d' /\
    firstn 3 d' = fin (flat [vadd v1 u]) /\
    firstn 3 (skipn 6 d') = fin (flat [vadd v2 u]) /\
    firstn 3 (skipn 12 d') = fin (flat [vadd v3 u]) /\
    firstn 3 (skipn 3 d') = firstn 3 (skipn 3 d) /\
    firstn 3 (skipn 9 d') = firstn 3 (skipn 9 d) /\
    skipn 15 d' = skipn 15 d.
Proof.
  destruct p1 as [[x_1 y_1] z_1], v1 as [[vx_1 vy_1] vz_1],
           p2 as [[x_2 y_2] z_2], v2 as [[vx_2 vy_2] vz_2],
           p3 as [[x_3 y_3] z_3], v3 as [[vx_3 vy_3] vz_3],
           a as [[a_x a_y] a_z], u as [[u_x u_y] u_z].
  unfold three_body_differential_system. spec_eval. num_eval.
  rewrite !shift_cancel.
  eexists. eexists. split; [reflexivity | ]. split; [reflexivity | ].
  cbn [firstn skipn]. repeat split.
Qed.

(** X4: exchanging the two bodies (their states and their gravitational
    parameters) exchanges the two halves of the two-body derivative. *)
Theorem two_body_exchange_symmetric (mu_1 mu_2 : R) (t : num)
    (p1 v1 p2 v2 : vec3) :
  exists d d' : state,
    two_body_differential_system (Finite mu_1) (Finite mu_2) t
      (fin (flat [p1; v1; p2; v2])) = Ok d /\
    two_body_differential_system (Finite mu_2) (Finite mu_1) t
      (fin (flat [p2; v2; p1; v1])) = Ok d' /\
    d' = skipn 6 d ++ firstn 6 d.
Proof.
  destruct p1 as [[x_1 y_1] z_1], v1 as [[vx_1 vy_1] vz_1],
           p2 as [[x_2 y_2] z_2], v2 as [[vx_2 vy_2] vz_2].
  unfold two_body_differential_system. spec_eval. num_eval.
  rewrite (norm3_flip x_1 y_1 z_1 x_2 y_2 z_2).
  eexists. eexists. split; [reflexivity | ]. split; [reflexivity | ].
  reflexivity.
Qed.

(** ** Conserved quantities of the inertial fields *)

(** X5: at every general three-body state with the three separations
    nonzero, mass_1 accel_1 + mass_2 accel_2 + mass_3 accel_3 = 0 for the
    derivative built for masses mass_1, mass_2, mass_3: the total linear
    momentum has zero rate of change. *)
Theorem three_body_momentum_rate_zero
    (grav_constant mass_1 mass_2 mass_3 : R)
    (t : num) (p1 v1 p2 v2 p3 v3 : vec3) :
  norm3 (vsub p2 p1) <> 0 ->
  norm3 (vsub p3 p1) <> 0 ->
  norm3 (vsub p3 p2) <> 0 ->
  exists d : list R,
    three_body_differential_system
      (Finite grav_constant * Finite mass_1)
      (Finite grav_constant * Finite mass_2)
      (Finite grav_constant * Finite mass_3)
      t (fin (flat [p1; v1; p2; v2; p3; v3])) = Ok (fin d) /\
    vadd (vadd (vscale mass_1 (accel 0 d)) (vscale mass_2 (accel 1 d)))
         (vscale mass_3 (accel 2 d)) = (0, 0, 0).
Proof.
  destruct p1 as [[x_1 y_1] z_1], v1 as [[vx_1 vy_1] vz_1],
           p2 as [[x_2 y_2] z_2], v2 as [[vx_2 vy_2] vz_2],
           p3 as [[x_3 y_3] z_3], v3 as [[vx_3 vy_3] vz_3].
  cbn [vsub]. intros H12 H13 H32. cbn [mul flat flat_map app].
  eexists. split; [apply three_body_nonsingular; assumption | ].
  cbn [accel nth Nat.mul Nat.add vadd vscale].
  repeat apply f_equal2; field; repeat split; assumption.
Qed.

Lemma three_body_momentum_rate_zero_witness :
  exists d : list R,
    three_body_differential_system
      (Finite 1 * Finite 2) (Finite 1 * Finite 3) (Finite 1 * Finite 5)
      (Finite 0)
      (fin (flat [(-1, 0, 0); (0, 1, 0); (1, 0, 0); (0, 0, 1);
                  (0, 0, 0); (1, 0, 0)])) = Ok (fin d) /\
    vadd (vadd (vscale 2 (accel 0 d)) (vscale 3 (accel 1 d)))
         (vscale 5 (accel 2 d)) = (0, 0, 0).
Proof.
  apply (three_body_momentum_rate_zero 1 2 3 5 (Finite 0)
           (-1, 0, 0) (0, 1, 0) (1, 0, 0) (0, 0, 1) (0, 0, 0) (1, 0, 0));
    cbn [vsub]; apply norm3_x_nonzero; lra.
Defined.

(** X6: at every two-body state with nonzero separation the total torque
    mass_1 pos_1 x accel_1 + mass_2 pos_2 x accel_2 is zero: the angular
    momentum about the origin has zero rate of change. *)
Theorem two_body_torque_zero (grav_constant mass_1 mass_2 : R)
    (t : num) (p1 v1 p2 v2 : vec3) :
  norm3 (vsub p2 p1) <> 0 ->
  exists d : list R,
    two_body_differential_system
      (Finite grav_constant * Finite mass_1)
      (Finite grav_constant * Finite mass_2)
      t (fin (flat [p1; v1; p2; v2])) = Ok (fin d) /\
    vadd (vscale mass_1 (cross p1 (accel 0 d)))
         (vscale mass_2 (cross p2 (accel 1 d))) = (0, 0, 0).
Proof.
  destruct p1 as [[x_1 y_1] z_1], v1 as [[vx_1 vy_1] vz_1],
           p2 as [[x_2 y_2] z_2], v2 as [[vx_2 vy_2] vz_2].
  cbn [vsub]. intros Hr. cbn [mul flat flat_map app].
  eexists. split; [apply two_body_nonsingular; assumption | ].
  cbn [accel nth Nat.mul Nat.add vadd vscale cross].
  repeat apply f_equal2; field; repeat split; assumption.
Qed.

Lemma two_body_torque_zero_witness :
  exists d : list R,
    two_body_differential_system (Finite 1 * Finite 2) (Finite 1 * Finite 3)
      (Finite 0)
      (fin (flat [(0, 1, 2); (10, 20, 30); (3000, 0, 0); (0, 40, 0)]))
    = Ok (fin d) /\
    vadd (vscale 2 (cross (0, 1, 2) (accel 0 d)))
         (vscale 3 (cross (3000, 0, 0) (accel 1 d))) = (0, 0, 0).
Proof.
  apply (two_body_torque_zero 1 2 3 (Finite 0)
           (0, 1, 2) (10, 20, 30) (3000, 0, 0) (0, 40, 0)).
  cbn [vsub]. apply norm3_x_nonzero. lra.
Defined.

(** X7: at every general three-body state with the three separations
    nonzero the total torque of the three bodies about the origin is zero. *)
Theorem three_body_torque_zero (grav_constant mass_1 mass_2 mass_3 : R)
    (t : num) (p1 v1 p2 v2 p3 v3 : vec3) :
  norm3 (vsub p2 p1) <> 0 ->
  norm3 (vsub p3 p1) <> 0 ->
  norm3 (vsub p3 p2) <> 0 ->
  exists d : list R,
    three_body_differential_system
      (Finite grav_constant * Finite mass_1)
      (Finite grav_constant * Finite mass_2)
      (Finite grav_constant * Finite mass_3)
      t (fin (flat [p1; v1; p2; v2; p3; v3])) = Ok (fin d) /\
    vadd (vadd (vscale mass_1 (cross p1 (accel 0 d)))
               (vscale mass_2 (cross p2 (accel 1 d))))
         (vscale mass_3 (cross p3 (accel 2 d))) = (0, 0, 0).
Proof.
  destruct p1 as [[x_1 y_1] z_1], v1 as [[vx_1 vy_1] vz_1],
           p2 as [[x_2 y_2] z_2], v2 as [[vx_2 vy_2] vz_2],
           p3 as [[x_3 y_3] z_3], v3 as [[vx_3 vy_3] vz_3].
  cbn [vsub]. intros H12 H13 H32. cbn [mul flat flat_map app].
  eexists. split; [apply three_body_nonsingular; assumption | ].
  cbn [accel nth Nat.mul Nat.add vadd vscale cross].
  repeat apply f_equal2; field; repeat split; assumption.
Qed.

Lemma three_body_torque_zero_witness :
  exists d : list R,
    three_body_differential_system
      (Finite 1 * Finite 2) (Finite 1 * Finite 3) (Finite 1 * Finite 5)
      (Finite 0)
      (fin (flat [(-1, 0, 0); (0, 1, 0); (1, 0, 0); (0, 0, 1);
                  (0, 0, 0); (1, 0, 0)])) = Ok (fin d) /\
    vadd (vadd (vscale 2 (cross (-1, 0, 0) (accel 0 d)))
               (vscale 3 (cross (1, 0, 0) (accel 1 d))))
         (vscale 5 (cross (0, 0, 0) (accel 2 d))) = (0, 0, 0).
Proof.
  apply (three_body_torque_zero 1 2 3 5 (Finite 0)
           (-1, 0, 0) (0, 1, 0) (1, 0, 0) (0, 0, 1) (0, 0, 0) (1, 0, 0));
    cbn [vsub]; apply norm3_x_nonzero; lra.
Defined.

(** X8: in the two-body field the motion of body 2 relative to body 1 is
    Keplerian with parameter mu_1 + mu_2: at every state with nonzero
    separation, [vel2 - vel1, accel_2 - accel_1] is the Kepler derivative
    [v, -(mu_1 + mu_2) pos / |pos|^3] at pos = pos2 - pos1, v = vel2 - vel1. *)
Theorem two_body_relative_motion_is_keplerian (mu_1 mu_2 : R) (t : num)
    (p1 v1 p2 v2 : vec3) :
  norm3 (vsub p2 p1) <> 0 ->
  exists d : list R,
    two_body_differential_system (Finite mu_1) (Finite mu_2) t
      (fin (flat [p1; v1; p2; v2])) = Ok (fin d) /\
    flat [vsub v2 v1; vsub (accel 1 d) (accel 0 d)]
    = kepler_derivative (mu_1 + mu_2) (vsub p2 p1) (vsub v2 v1).
Proof.
  destruct p1 as [[x_1 y_1] z_1], v1 as [[vx_1 vy_1] vz_1],
           p2 as [[x_2 y_2] z_2], v2 as [[vx_2 vy_2] vz_2].
  cbn [vsub]. intros Hr. cbn [flat flat_map app].
  eexists. split; [apply two_body_nonsingular; assumption | ].
  cbn [accel nth Nat.mul Nat.add vsub kepler_derivative vscale
       flat flat_map app].
  repeat apply f_equal2; try reflexivity; field; exact Hr.
Qed.

Lemma two_body_relative_motion_is_keplerian_witness :
  exists d : list R,
    two_body_differential_system (Finite 2) (Finite 3) (Finite 0)
      (fin (flat [(0, 1, 2); (10, 20, 30); (3000, 0, 0); (0, 40, 0)]))
    = Ok (fin d) /\
    flat [vsub (0, 40, 0) (10, 20, 30); vsub (accel 1 d) (accel 0 d)]
    = kepler_derivative (2 + 3) (vsub (3000, 0, 0) (0, 1, 2))
        (vsub (0, 40, 0) (10, 20, 30)).
Proof.
  apply (two_body_relative_motion_is_keplerian 2 3 (Finite 0)
           (0, 1, 2) (10, 20, 30) (3000, 0, 0) (0, 40, 0)).
  cbn [vsub]. apply norm3_x_nonzero. lra.
Defined.

(** ** The restricted model *)

(** X9: reversing symmetry of the restricted field.  Reflecting a state in
    the x-z plane and reversing the velocity, (x, y, z, v_x, v_y, v_z) to
    (x, -y, z, -v_x, v_y, -v_z), keeps the x and z accelerations and negates
    the y acceleration, at every state (singular or not). *)
Theorem cr_reversing_symmetry (mu_1 mu_2 pi_1 pi_2 omega r_12 : R) (t : num)
    (x y z v_x v_y v_z : R) :
  exists a_x a_y a_z : num,
    three_body_cr_differential_system (Finite mu_1) (Finite mu_2) (Finite pi_1)
      (Finite pi_2) (Finite omega) (Finite r_12) t
      (fin [x; y; z; v_x; v_y; v_z])
    = Ok [Finite v_x; Finite v_y; Finite v_z; a_x; a_y; a_z] /\
    three_body_cr_differential_system (Finite mu_1) (Finite mu_2) (Finite pi_1)
      (Finite pi_2) (Finite omega) (Finite r_12) t
      (fin [x; - y; z; - v_x; v_y; - v_z])
    = Ok [Finite (- v_x); Finite v_y; Finite (- v_z); a_x; (- a_y)%num; a_z].
Proof.
  unfold three_body_cr_differential_system. num_eval.
  rewrite !norm3_neg_y.
  repeat match goal with
         | |- context [np_div ?a ?b] => destruct (np_div a b) as [? | ]
         end;
    cbn [add sub mul neg];
    eexists; eexists; eexists; (split; [reflexivity | ]);
    cbn [neg]; components; ring.
Qed.

(** X10: mirror symmetry of the restricted field in the plane of rotation:
    (x, y, z, v_x, v_y, v_z) to (x, y, -z, v_x, v_y, -v_z) keeps the x and y
    accelerations and negates the z acceleration, at every state. *)
Theorem cr_mirror_symmetry (mu_1 mu_2 pi_1 pi_2 omega r_12 : R) (t : num)
    (x y z v_x v_y v_z : R) :
  exists a_x a_y a_z : num,
    three_body_cr_differential_system (Finite mu_1) (Finite mu_2) (Finite pi_1)
      (Finite pi_2) (Finite omega) (Finite r_12) t
      (fin [x; y; z; v_x; v_y; v_z])
    = Ok [Finite v_x; Finite v_y; Finite v_z; a_x; a_y; a_z] /\
    three_body_cr_differential_system (Finite mu_1) (Finite mu_2) (Finite pi_1)
      (Finite pi_2) (Finite omega) (Finite r_12) t
      (fin [x; y; - z; v_x; v_y; - v_z])
    = Ok [Finite v_x; Finite v_y; Finite (- v_z); a_x; a_y; (- a_z)%num].
Proof.
  unfold three_body_cr_differential_system. num_eval.
  rewrite !norm3_neg_z.
  repeat match goal with
         | |- context [np_div ?a ?b] => destruct (np_div a b) as [? | ]
         end;
    cbn [add sub mul neg];
    eexists; eexists; eexists; (split; [reflexivity | ]);
    cbn [neg]; components; ring.
Qed.

(** X11: the velocity-dependent (Coriolis) part of the restricted
    acceleration does no work: at a state with both primary distances
    nonzero, v . accel(pos, v) = v . accel(pos, 0). *)
Theorem cr_coriolis_does_no_work (mu_1 mu_2 pi_1 pi_2 omega r_12 : R)
    (t : num) (p v : vec3) :
  norm3 (vsub p (primary_1 pi_2 r_12)) <> 0 ->
  norm3 (vsub p (primary_2 pi_1 r_12)) <> 0 ->
  exists d d0 : list R,
    three_body_cr_differential_system (Finite mu_1) (Finite mu_2) (Finite pi_1)
      (Finite pi_2) (Finite omega) (Finite r_12) t (fin (flat [p; v]))
    = Ok (fin d) /\
    three_body_cr_differential_system (Finite mu_1) (Finite mu_2) (Finite pi_1)
      (Finite pi_2) (Finite omega) (Finite r_12) t (fin (flat [p; (0, 0, 0)]))
    = Ok (fin d0) /\
    dot v (accel 0 d) = dot v (accel 0 d0).
Proof.
  destruct p as [[x y] z], v as [[v_x v_y] v_z].
  rewrite distance_primary_1, distance_primary_2. intros H1 H2.
  cbn [flat flat_map app].
  eexists. eexists.
  split; [apply three_body_cr_nonsingular; assumption | ].
  split; [apply three_body_cr_nonsingular; assumption | ].
  cbn [accel nth Nat.mul Nat.add dot]. field. split; assumption.
Qed.

Lemma cr_coriolis_does_no_work_witness :
  exists d d0 : list R,
    three_body_cr_differential_system (Finite 1) (Finite 1) (Finite (1 / 2))
      (Finite (1 / 2)) (Finite 1) (Finite 2) (Finite 0)
      (fin (flat [(0, 1, 0); (3, 4, 5)])) = Ok (fin d) /\
    three_body_cr_differential_system (Finite 1) (Finite 1) (Finite (1 / 2))
      (Finite (1 / 2)) (Finite 1) (Finite 2) (Finite 0)
      (fin (flat [(0, 1, 0); (0, 0, 0)])) = Ok (fin d0) /\
    dot (3, 4, 5) (accel 0 d) = dot (3, 4, 5) (accel 0 d0).
Proof.
  apply (cr_coriolis_does_no_work 1 1 (1 / 2) (1 / 2) 1 2 (Finite 0)
           (0, 1, 0) (3, 4, 5)).
  - rewrite distance_primary_1. apply norm3_x_nonzero. lra.
  - rewrite distance_primary_2. apply norm3_x_nonzero. lra.
Defined.

(** X12: the constants [three_body_cr_propagator] derives, in exact
    arithmetic (no rounding, overflow or underflow).  For
    mass_1 + mass_2 and r_12 nonzero and a non-negative
    grav_constant (mass_1 + mass_2) / r_12^3, the closure handed to [rk_45]
    has finite constants with pi_1 + pi_2 = 1, the primaries r_12 apart on
    the x axis, their centre of mass at the origin, and a mean motion
    omega >= 0 with omega^2 r_12^3 = grav_constant (mass_1 + mass_2). *)
Theorem cr_propagator_constants (grav_constant mass_1 mass_2 r_12 : R) :
  mass_1 + mass_2 <> 0 -> r_12 <> 0 ->
  0 <= grav_constant * (mass_1 + mass_2) / r_12 ^ 3 ->
  exists pi_1 pi_2 omega : R,
    (forall (rk_45 : integrator) t_init t_final initial_conditions
            step_size tolerance beta,
        three_body_cr_propagator rk_45 t_init t_final (Finite mass_1)
          (Finite mass_2) (Finite r_12) initial_conditions
          (Finite grav_constant) step_size tolerance beta
        = rk_45 (three_body_cr_differential_system
                   (Finite (grav_constant * mass_1))
                   (Finite (grav_constant * mass_2))
                   (Finite pi_1) (Finite pi_2) (Finite omega) (Finite r_12))
            initial_conditions t_init t_final step_size tolerance beta)
    /\ pi_1 + pi_2 = 1
    /\ vsub (primary_2 pi_1 r_12) (primary_1 pi_2 r_12) = (r_12, 0, 0)
    /\ vadd (vscale mass_1 (primary_1 pi_2 r_12))
            (vscale mass_2 (primary_2 pi_1 r_12)) = (0, 0, 0)
    /\ 0 <= omega
    /\ omega ^ 2 * r_12 ^ 3 = grav_constant * (mass_1 + mass_2).
Proof.
  intros Hm Hr Hq.
  assert (Hr3 : r_12 ^ 3 <> 0) by (apply pow_nonzero; exact Hr).
  exists (mass_1 / (mass_1 + mass_2)), (mass_2 / (mass_1 + mass_2)),
    (sqrt (grav_constant * (mass_1 + mass_2) / r_12 ^ 3)).
  split; [ | split; [ | split; [ | split; [ | split]]]].
  - intros. unfold three_body_cr_propagator, py_div. cbn [add mul pow].
    rewrite !is_zero_false by assumption. cbn [bind].
    rewrite !np_div_finite by assumption.
    unfold np_sqrt.
    destruct (Rlt_dec (grav_constant * (mass_1 + mass_2) / r_12 ^ 3) 0)
      as [Hneg | _]; [lra | ].
    reflexivity.
  - field. exact Hm.
  - cbn [primary_1 primary_2 vsub]. repeat apply f_equal2; field; exact Hm.
  - cbn [primary_1 primary_2 vadd vscale].
    repeat apply f_equal2; field; exact Hm.
  - apply sqrt_pos.
  - rewrite <- Rsqr_pow2, Rsqr_sqrt by exact Hq. field. exact Hr.
Qed.

Lemma cr_propagator_constants_witness :
  exists pi_1 pi_2 omega : R,
    (forall (rk_45 : integrator) t_init t_final initial_conditions
            step_size tolerance beta,
        three_body_cr_propagator rk_45 t_init t_final (Finite 3)
          (Finite 1) (Finite 2) initial_conditions
          (Finite 1) step_size tolerance beta
        = rk_45 (three_body_cr_differential_system
                   (Finite (1 * 3)) (Finite (1 * 1))
                   (Finite pi_1) (Finite pi_2) (Finite omega) (Finite 2))
            initial_conditions t_init t_final step_size tolerance beta)
    /\ pi_1 + pi_2 = 1
    /\ vsub (primary_2 pi_1 2) (primary_1 pi_2 2) = (2, 0, 0)
    /\ vadd (vscale 3 (primary_1 pi_2 2)) (vscale 1 (primary_2 pi_1 2))
       = (0, 0, 0)
    /\ 0 <= omega
    /\ omega ^ 2 * 2 ^ 3 = 1 * (3 + 1).
Proof.
  apply (cr_propagator_constants 1 3 1 2); simpl; lra.
Defined.

(** X13: the equilateral point is an equilibrium of the field the
    restricted propagator builds.  For grav_constant >= 0,
    mass_1 + mass_2 > 0 and r_12 > 0, with the constants computed as in
    [three_body_cr_propagator], the derivative at rest at
    (r_12 / 2 - pi_2 r_12, sqrt 3 / 2 r_12, 0) is the zero vector. *)
Theorem cr_equilateral_point_is_equilibrium
    (grav_constant mass_1 mass_2 r_12 : R) (t : num) :
  0 <= grav_constant -> 0 < mass_1 + mass_2 -> 0 < r_12 ->
  let mu_1 := (Finite grav_constant * Finite mass_1)%num in
  let mu_2 := (Finite grav_constant * Finite mass_2)%num in
  let pi_1 := (Finite mass_1 / (Finite mass_1 + Finite mass_2))%num in
  let pi_2 := (Finite mass_2 / (Finite mass_1 + Finite mass_2))%num in
  let omega :=
    np_sqrt (Finite grav_constant * (Finite mass_1 + Finite mass_2)
             / Finite r_12 ** 3)%num in
  three_body_cr_differential_system mu_1 mu_2 pi_1 pi_2 omega (Finite r_12) t
    (fin (flat [equilateral_point (mass_2 / (mass_1 + mass_2)) r_12;
                (0, 0, 0)]))
  = Ok (fin [0; 0; 0; 0; 0; 0]).
Proof.
  intros HG Hm Hr mu_1 mu_2 pi_1 pi_2 omega.
  subst mu_1 mu_2 pi_1 pi_2 omega. cbn [add mul pow].
  assert (Hm0 : mass_1 + mass_2 <> 0) by lra.
  assert (Hr3 : r_12 ^ 3 <> 0) by (apply pow_nonzero; lra).
  rewrite !np_div_finite by assumption.
  assert (Hq : 0 <= grav_constant * (mass_1 + mass_2) / r_12 ^ 3).
  { apply Rmult_le_pos; [ nra | ]. left. apply Rinv_0_lt_compat.
    apply pow_lt. exact Hr. }
  rewrite np_sqrt_nonneg by exact Hq.
  set (q := grav_constant * (mass_1 + mass_2) / r_12 ^ 3) in *.
  assert (Hw : sqrt q ^ 2 = q).
  { rewrite <- Rsqr_pow2. apply Rsqr_sqrt. exact Hq. }
  unfold equilateral_point. cbn [flat flat_map app].
  assert (H1 : norm3 (r_12 / 2 - mass_2 / (mass_1 + mass_2) * r_12
                      + mass_2 / (mass_1 + mass_2) * r_12,
                      sqrt 3 / 2 * r_12, 0) = r_12).
  { replace (r_12 / 2 - mass_2 / (mass_1 + mass_2) * r_12
             + mass_2 / (mass_1 + mass_2) * r_12) with (1 * (r_12 / 2)) by ring.
    apply norm3_equilateral; [exact Hr | ring]. }
  assert (H2 : norm3 (r_12 / 2 - mass_2 / (mass_1 + mass_2) * r_12
                      - mass_1 / (mass_1 + mass_2) * r_12,
                      sqrt 3 / 2 * r_12, 0) = r_12).
  { replace (r_12 / 2 - mass_2 / (mass_1 + mass_2) * r_12
             - mass_1 / (mass_1 + mass_2) * r_12) with (-1 * (r_12 / 2))
      by (field; exact Hm0).
    apply norm3_equilateral; [exact Hr | ring]. }
  rewrite three_body_cr_nonsingular by (rewrite ?H1, ?H2; lra).
  rewrite H1, H2, Hw. subst q.
  cbn [fin map]. components; field; repeat split; lra.
Qed.

Lemma cr_equilateral_point_is_equilibrium_witness :
  three_body_cr_differential_system
    (Finite 1 * Finite 3) (Finite 1 * Finite 1)
    (Finite 3 / (Finite 3 + Finite 1)) (Finite 1 / (Finite 3 + Finite 1))
    (np_sqrt (Finite 1 * (Finite 3 + Finite 1) / Finite 2 ** 3)%num)
    (Finite 2) (Finite 0)
    (fin (flat [equilateral_point (1 / (3 + 1)) 2; (0, 0, 0)]))
  = Ok (fin [0; 0; 0; 0; 0; 0]).
Proof.
  apply (cr_equilateral_point_is_equilibrium 1 3 1 2 (Finite 0)); lra.
Defined.

(** X14: a negative radicand is not rejected.  In exact arithmetic (in
    particular with no overflow or underflow in r_12 ** 3 and in the
    quotient), when mass_1 + mass_2 and
    r_12 are nonzero and grav_constant (mass_1 + mass_2) / r_12^3 < 0 (a
    negative r_12, say), [three_body_cr_propagator] raises nothing and runs
    [rk_45] on a closure whose omega is NaN: at every 6-component state its
    x and y accelerations are non-finite. *)
Theorem cr_propagator_negative_radicand
    (grav_constant mass_1 mass_2 r_12 : R) :
  mass_1 + mass_2 <> 0 -> r_12 <> 0 ->
  grav_constant * (mass_1 + mass_2) / r_12 ^ 3 < 0 ->
  exists f : derivative,
    (forall (rk_45 : integrator) t_init t_final initial_conditions
            step_size tolerance beta,
        three_body_cr_propagator rk_45 t_init t_final (Finite mass_1)
          (Finite mass_2) (Finite r_12) initial_conditions
          (Finite grav_constant) step_size tolerance beta
        = rk_45 f initial_conditions t_init t_final step_size tolerance beta)
    /\
    (forall t x y z v_x v_y v_z,
        exists a_z, f t [x; y; z; v_x; v_y; v_z]
                    = Ok [v_x; v_y; v_z; NonFinite; NonFinite; a_z]).
Proof.
  intros Hm Hr Hq.
  assert (Hr3 : r_12 ^ 3 <> 0) by (apply pow_nonzero; exact Hr).
  eexists. split.
  - intros. unfold three_body_cr_propagator, py_div. cbn [add mul pow].
    rewrite !is_zero_false by assumption. cbn [bind].
    rewrite !np_div_finite by assumption.
    rewrite np_sqrt_negative by exact Hq.
    reflexivity.
  - intros. unfold three_body_cr_differential_system.
    cbn [add sub mul neg pow two].
    eexists. reflexivity.
Qed.

Lemma cr_propagator_negative_radicand_witness :
  exists f : derivative,
    (forall (rk_45 : integrator) t_init t_final initial_conditions
            step_size tolerance beta,
        three_body_cr_propagator rk_45 t_init t_final (Finite 3)
          (Finite 1) (Finite (-2)) initial_conditions
          (Finite 1) step_size tolerance beta
        = rk_45 f initial_conditions t_init t_final step_size tolerance beta)
    /\
    (forall t x y z v_x v_y v_z,
        exists a_z, f t [x; y; z; v_x; v_y; v_z]
                    = Ok [v_x; v_y; v_z; NonFinite; NonFinite; a_z]).
Proof.
  apply (cr_propagator_negative_radicand 1 3 1 (-2)); simpl; lra.
Defined.

(** ** periapsis_to_true_anomaly *)

(** The function when its three Python divisions succeed. *)
Lemma periapsis_no_exception (e h theta mu : R) :
  mu <> 0 -> e <> -1 ->
  periapsis_to_true_anomaly (Finite e) (Finite h) (Finite theta) (Finite mu)
  = Ok (let eccentric_anomaly :=
          Finite 2 * np_arctan (np_sqrt (Finite ((1 - e) / (1 + e))
                                          * np_tan (Finite (theta / 2)))) in
        (eccentric_anomaly - Finite e * np_sin eccentric_anomaly)
        / Finite (2 * PI)
        * (Finite (2 * PI / mu ^ 2)
           * (Finite h / np_sqrt (Finite (1 - e ^ 2))) ** 3))%num.
Proof.
  intros Hmu He.
  unfold periapsis_to_true_anomaly, two, pi. finite_arith.
  rewrite py_div_finite by (apply square_nonzero; exact Hmu). cbn [bind].
  rewrite py_div_finite by lra. cbn [bind].
  rewrite py_div_finite by lra. cbn [bind].
  reflexivity.
Qed.

Lemma tan_negative_second_quadrant (x : R) :
  PI / 2 < x < PI -> tan x < 0 /\ cos x <> 0.
Proof.
  intros [Hlo Hhi]. pose proof PI_RGT_0 as Hpi.
  assert (Hc : cos x < 0) by (apply cos_lt_0; lra).
  assert (Hs : 0 < sin x) by (apply sin_gt_0; lra).
  split; [ | lra].
  unfold tan, Rdiv.
  assert (Hi : / cos x < 0) by (apply Rinv_lt_0_compat; exact Hc).
  nra.
Qed.

Lemma tan_negative_fourth_quadrant (x : R) :
  - (PI / 2) < x < 0 -> tan x < 0 /\ cos x <> 0.
Proof.
  intros [Hlo Hhi]. split.
  - apply tan_lt_0; lra.
  - apply Rgt_not_eq. apply cos_gt_0; lra.
Qed.

(** X16: in exact arithmetic (no overflow or underflow in mu ** 2 and in
    the orbital period), at true anomaly 0 the time since periapsis is 0,
    for every
    elliptic eccentricity (-1 < e < 1), every angular momentum and every
    nonzero mu. *)
Theorem periapsis_time_zero_at_periapsis (e h mu : R) :
  mu <> 0 -> -1 < e < 1 ->
  periapsis_to_true_anomaly (Finite e) (Finite h) (Finite 0) (Finite mu)
  = Ok (Finite 0).
Proof.
  intros Hmu He.
  rewrite periapsis_no_exception by lra. cbv zeta.
  assert (He2 : 0 < 1 - e ^ 2) by nra.
  assert (Hs : sqrt (1 - e ^ 2) <> 0).
  { apply Rgt_not_eq. apply sqrt_lt_R0. exact He2. }
  rewrite (np_sqrt_nonneg (1 - e ^ 2)) by lra.
  rewrite np_div_finite by exact Hs.
  replace (0 / 2) with 0 by field.
  rewrite np_tan_finite by (rewrite cos_0; lra).
  rewrite tan_0. finite_arith. rewrite Rmult_0_r.
  rewrite np_sqrt_nonneg by lra. rewrite sqrt_0.
  cbn [np_arctan]. rewrite atan_0. finite_arith.
  replace (2 * 0) with 0 by ring. cbn [np_sin]. rewrite sin_0. finite_arith.
  rewrite np_div_finite by exact two_pi_nonzero. finite_arith.
  apply f_equal. apply f_equal. field.
  repeat split; try apply two_pi_nonzero; try exact Hs.
  - exact Hmu.
  - pose proof PI_RGT_0. lra.
Qed.

Lemma periapsis_time_zero_at_periapsis_witness :
  periapsis_to_true_anomaly (Finite (1 / 2)) (Finite 70000) (Finite 0)
    default_mu = Ok (Finite 0).
Proof.
  apply (periapsis_time_zero_at_periapsis (1 / 2) 70000 398600); lra.
Defined.

(** X17: in exact arithmetic (no overflow or underflow in mu ** 2), for
    an elliptic eccentricity and a true anomaly in the second
    half of the orbit, (pi, 2 pi), or in (-pi, 0), the function returns NaN:
    the square root is taken of (1 - e) / (1 + e) * tan(true_anomaly / 2),
    which is negative there. *)
Theorem periapsis_nan_in_second_half_orbit (e h theta mu : R) :
  mu <> 0 -> -1 < e < 1 ->
  (- PI < theta < 0 \/ PI < theta < 2 * PI) ->
  periapsis_to_true_anomaly (Finite e) (Finite h) (Finite theta) (Finite mu)
  = Ok NonFinite.
Proof.
  intros Hmu He Htheta.
  rewrite periapsis_no_exception by lra. cbv zeta.
  assert (Ht : tan (theta / 2) < 0 /\ cos (theta / 2) <> 0).
  { destruct Htheta as [H | H].
    - apply tan_negative_fourth_quadrant. lra.
    - apply tan_negative_second_quadrant. lra. }
  destruct Ht as [Ht Hc].
  rewrite np_tan_finite by exact Hc. finite_arith.
  assert (Hk : 0 < (1 - e) / (1 + e)).
  { apply Rdiv_lt_0_compat; lra. }
  rewrite np_sqrt_negative by nra.
  reflexivity.
Qed.

Lemma periapsis_nan_in_second_half_orbit_witness :
  periapsis_to_true_anomaly (Finite (1 / 2)) (Finite 70000)
    (Finite (3 * PI / 2)) default_mu = Ok NonFinite.
Proof.
  apply (periapsis_nan_in_second_half_orbit (1 / 2) 70000 (3 * PI / 2) 398600).
  - lra.
  - lra.
  - right. pose proof PI_RGT_0. lra.
Defined.

(** X18: in exact arithmetic (no overflow or underflow in mu ** 2 and
    eccentricity ** 2), outside the elliptic range (eccentricity >= 1 or
    < -1) the result
    is non-finite for every angular momentum, true anomaly and nonzero mu:
    the orbital period divides by sqrt(1 - e^2). *)
Theorem periapsis_non_finite_unless_elliptic (e h theta mu : R) :
  mu <> 0 -> (e < -1 \/ 1 <= e) ->
  periapsis_to_true_anomaly (Finite e) (Finite h) (Finite theta) (Finite mu)
  = Ok NonFinite.
Proof.
  intros Hmu He.
  rewrite periapsis_no_exception by lra. cbv zeta.
  assert (Hp : (Finite h / np_sqrt (Finite (1 - e ^ 2)))%num = NonFinite).
  { destruct (Req_dec_T (1 - e ^ 2) 0) as [H0 | H0].
    - rewrite np_sqrt_nonneg by lra. rewrite H0, sqrt_0.
      apply np_div_by_zero. reflexivity.
    - rewrite np_sqrt_negative by (destruct He; nra). reflexivity. }
  rewrite Hp. cbn [pow]. rewrite !mul_nonfinite_r. reflexivity.
Qed.

Lemma periapsis_non_finite_unless_elliptic_witness :
  periapsis_to_true_anomaly (Finite 1) (Finite 70000) (Finite 1) default_mu
  = Ok NonFinite.
Proof.
  apply (periapsis_non_finite_unless_elliptic 1 70000 1 398600); lra.
Defined.

(** X19: in exact arithmetic, for 0 <= e < 1, angular momentum >= 0,
    nonzero mu and a true
    anomaly in [0, pi), the function returns a finite time between 0 and
    half the orbital period it computes. *)
Theorem periapsis_time_within_half_period (e h theta mu : R) :
  mu <> 0 -> 0 <= e < 1 -> 0 <= h -> 0 <= theta < PI ->
  exists tau : R,
    periapsis_to_true_anomaly (Finite e) (Finite h) (Finite theta) (Finite mu)
    = Ok (Finite tau) /\
    0 <= tau /\ 2 * tau <= orbit_period mu h e.
Proof.
  intros Hmu He Hh Htheta. pose proof PI_RGT_0 as Hpi.
  rewrite periapsis_no_exception by lra. cbv zeta.
  assert (He2 : 0 < 1 - e ^ 2) by nra.
  assert (Hs : 0 < sqrt (1 - e ^ 2)) by (apply sqrt_lt_R0; exact He2).
  rewrite (np_sqrt_nonneg (1 - e ^ 2)) by lra.
  rewrite np_div_finite by lra.
  assert (Hc : 0 < cos (theta / 2)) by (apply cos_gt_0; lra).
  rewrite np_tan_finite by lra. finite_arith.
  assert (Ht : 0 <= tan (theta / 2)).
  { destruct (Req_dec_T theta 0) as [-> | Hne].
    - replace (0 / 2) with 0 by field. rewrite tan_0. lra.
    - left. apply tan_gt_0; lra. }
  assert (Hk : 0 <= (1 - e) / (1 + e)).
  { apply Rmult_le_pos; [lra | ]. left. apply Rinv_0_lt_compat. lra. }
  rewrite np_sqrt_nonneg by (apply Rmult_le_pos; assumption).
  set (s := sqrt ((1 - e) / (1 + e) * tan (theta / 2))).
  assert (Hs0 : 0 <= s) by apply sqrt_pos.
  cbn [np_arctan]. finite_arith. cbn [np_sin]. finite_arith.
  rewrite np_div_finite by lra. finite_arith.
  set (E := 2 * atan s).
  assert (HE : 0 <= E < PI).
  { subst E. pose proof (atan_bound s) as [_ Hup].
    assert (0 <= atan s).
    { destruct Hs0 as [Hpos | <-].
      - left. rewrite <- atan_0. apply atan_increasing. exact Hpos.
      - rewrite atan_0. lra. }
    lra. }
  assert (Hsin : 0 <= sin E <= E).
  { split; [apply sin_ge_0; lra | ].
    destruct (Req_dec_T E 0) as [H0 | Hne].
    - rewrite H0, sin_0. lra.
    - left. apply sin_lt_x. lra. }
  assert (HM : 0 <= E - e * sin E <= PI) by nra.
  eexists. split; [reflexivity | ].
  unfold orbit_period.
  set (T := 2 * PI / mu ^ 2 * (h / sqrt (1 - e ^ 2)) ^ 3).
  assert (HT : 0 <= T).
  { subst T. apply Rmult_le_pos.
    - apply Rmult_le_pos; [lra | ]. left. apply Rinv_0_lt_compat.
      assert (mu ^ 2 <> 0) by (apply pow_nonzero; exact Hmu). nra.
    - apply pow_le. apply Rmult_le_pos; [exact Hh | ].
      left. apply Rinv_0_lt_compat. exact Hs. }
  set (M := E - e * sin E) in *.
  assert (Hf : 0 <= M / (2 * PI) <= 1 / 2).
  { split.
    - apply Rmult_le_pos; [lra | ]. left. apply Rinv_0_lt_compat. lra.
    - apply Rmult_le_reg_r with (2 * PI); [lra | ].
      unfold Rdiv. rewrite Rmult_assoc, Rinv_l by lra. lra. }
  split; nra.
Qed.

Lemma periapsis_time_within_half_period_witness :
  exists tau : R,
    periapsis_to_true_anomaly (Finite (1 / 2)) (Finite 70000)
      (Finite (PI / 2)) default_mu = Ok (Finite tau) /\
    0 <= tau /\ 2 * tau <= orbit_period 398600 70000 (1 / 2).
Proof.
  apply (periapsis_time_within_half_period (1 / 2) 70000 (PI / 2) 398600).
  - lra.
  - lra.
  - lra.
  - pose proof PI_RGT_0. lra.
Defined.

(** ** The propagator page of the dashboard *)

Import String.
Local Open Scope string_scope.

(** Run the loops of the page on the literal dictionaries. *)
Ltac run_page :=
  cbv beta iota zeta delta
    [propagator_page enter_setup enter_fields to_floats
     default_setup default_ic keys map fst for_each getitem setitem
     and_then py_float number String.eqb Ascii.eqb Bool.eqb
     getnum as_number values_of lift].

(** X20: when 'Calculate' is ticked and every field holds a text that
    [float] accepts, each propagator is called with the entered setup
    values, no step size, and the initial conditions hard-coded in the
    page: the texts of the initial-condition fields are stored under
    [prop_setup] and never reach the call. *)
Theorem page_calls_with_default_initial_conditions
    (text_input : string -> num -> string) (parse : string -> option num)
    (rk_45 : integrator) (entered : string -> R -> num) :
  (forall key x, parse (text_input key (Finite x)) = Some (entered key x)) ->
  propagator_page text_input parse rk_45 GeneralTwoBody true
  = (out <~ lift (two_body_propagator rk_45
                    (entered "t_init" 0) (entered "t_final" 480)
                    (entered "mass_1" 1e26) (entered "mass_2" 1e26)
                    (fin [0; 0; 0; 10e3; 20e3; 30e3; 3000e3; 0; 0; 0; 40e3; 0])
                    (entered "grav_constant" 6.67259e-11) None
                    (entered "tolerance" 500) (entered "beta" 0.8)) ;;
     Done (Some out))
  /\
  propagator_page text_input parse rk_45 CircularRestrictedThreeBody true
  = (out <~ lift (three_body_cr_propagator rk_45
                    (entered "t_init" 0)
                    (entered "t_final" (3.16689 * 24 * 60 * 60))
                    (entered "mass_1" 5.974e24) (entered "mass_2" 73.48e21)
                    (entered "r_12" 384400)
                    (fin [-4671; -6378 - 200; 0; 10.2565702; -3.73308146; 0])
                    (entered "grav_constant" 6.6759e-20) None
                    (entered "tolerance" 10) (entered "beta" 0.8)) ;;
     Done (Some out))
  /\
  propagator_page text_input parse rk_45 GeneralThreeBody true
  = (out <~ lift (three_body_propagator rk_45
                    (entered "t_init" 0) (entered "t_final" 7)
                    (entered "mass_1" 1) (entered "mass_2" 1)
                    (entered "mass_3" 1)
                    (fin [-1; 0; 0; 0.39295; 0.09758; 0;
                          1; 0; 0; 0.39295; 0.09758; 0;
                          0; 0; 0; -0.7859; -0.19516; 0])
                    (entered "grav_constant" 1) None
                    (entered "tolerance" 0.005) (entered "beta" 0.7)) ;;
     Done (Some out)).
Proof.
  intros Hparse.
  repeat split; run_page; repeat (rewrite Hparse; run_page); reflexivity.
Qed.

Lemma page_calls_with_default_initial_conditions_witness :
  propagator_page (fun _ _ => "1") (fun _ => Some (Finite 1))
    first_sample_rk_45 GeneralTwoBody true
  = (out <~ lift (two_body_propagator first_sample_rk_45
                    (Finite 1) (Finite 1) (Finite 1) (Finite 1)
                    (fin [0; 0; 0; 10e3; 20e3; 30e3; 3000e3; 0; 0; 0; 40e3; 0])
                    (Finite 1) None (Finite 1) (Finite 1)) ;;
     Done (Some out)).
Proof.
  apply (page_calls_with_default_initial_conditions
           (fun _ _ => "1") (fun _ => Some (Finite 1)) first_sample_rk_45
           (fun _ _ => Finite 1)).
  intros key x. reflexivity.
Defined.

(** X21: when 'Calculate' is ticked and the text of any field of the page,
    a setup field or an initial-condition field, is not a number for
    [float], the page fails with ValueError, whatever the other fields
    hold; no propagator result is produced. *)
Theorem page_rejects_unparsable_field
    (text_input : string -> num -> string) (parse : string -> option num)
    (rk_45 : integrator) (o : prop_option) (key : string) (x : num) :
  getitem (default_setup o ++ default_ic o)%list key = Done (Number x) ->
  parse (text_input key x) = None ->
  propagator_page text_input parse rk_45 o true = Fails (Exn ValueError).
Proof.
  intros Hget Hnone.
  destruct o; cbn [getitem app default_setup default_ic number] in Hget;
    repeat match type of Hget with
           | context [String.eqb ?a key] =>
               destruct (String.eqb_spec a key) as [Heq | _];
               [ subst key; injection Hget as <-;
                 run_page;
                 repeat (match goal with
                         | |- context [parse (text_input ?k ?d)] =>
                             first [ rewrite Hnone
                                   | destruct (parse (text_input k d)) ]
                         end; run_page; try reflexivity)
               | ]
           end;
    discriminate Hget.
Qed.

Lemma page_rejects_unparsable_field_witness :
  propagator_page (fun _ _ => "ten") (fun _ => None) first_sample_rk_45
    GeneralTwoBody true = Fails (Exn ValueError).
Proof.
  apply (page_rejects_unparsable_field (fun _ _ => "ten") (fun _ => None)
           first_sample_rk_45 GeneralTwoBody "vx_1" (Finite 10e3));
    reflexivity.
Defined.

(** X22: what is typed into the initial-condition fields has no effect on
    the outcome of the page.  Two sessions that hold the same texts in the
    setup fields, and texts that [float] accepts in the initial-condition
    fields, end in the same outcome. *)
Theorem page_ignores_entered_initial_conditions
    (text_input text_input' : string -> num -> string)
    (parse : string -> option num) (rk_45 : integrator)
    (o : prop_option) (pressed : bool) :
  (forall key x, In key (keys (default_setup o)) ->
                 text_input' key x = text_input key x) ->
  (forall key x, In key (keys (default_ic o)) ->
                 parse (text_input key x) <> None /\
                 parse (text_input' key x) <> None) ->
  propagator_page text_input' parse rk_45 o pressed
  = propagator_page text_input parse rk_45 o pressed.
Proof.
  intros Hsame Hic.
  destruct pressed; [ | destruct o; run_page; reflexivity].
  destruct o; cbn [default_setup default_ic keys map fst] in Hsame, Hic;
    run_page;
    repeat match goal with
           | |- context [text_input' ?k ?d] =>
               rewrite (Hsame k d) by (cbn [In]; tauto)
           end;
    repeat (match goal with
            | |- context [parse (?f ?k ?d)] =>
                let Hp := fresh "Hp" in
                destruct (parse (f k d)) eqn:Hp;
                [ | first [ reflexivity
                          | exfalso;
                            destruct (Hic k d) as [H1 H2];
                            [cbn [In]; tauto | congruence] ] ]
            end; run_page);
    reflexivity.
Qed.

Lemma page_ignores_entered_initial_conditions_witness :
  propagator_page (fun key _ => if key =? "x_1" then "7" else "1")
    (fun _ => Some (Finite 1)) first_sample_rk_45 GeneralTwoBody true
  = propagator_page (fun _ _ => "1")
      (fun _ => Some (Finite 1)) first_sample_rk_45 GeneralTwoBody true.
Proof.
  apply (page_ignores_entered_initial_conditions
           (fun _ _ => "1") (fun key _ => if key =? "x_1" then "7" else "1")
           (fun _ => Some (Finite 1)) first_sample_rk_45 GeneralTwoBody true).
  - intros key x Hin. cbn [default_setup keys map fst In] in Hin.
    repeat (destruct Hin as [<- | Hin]; [reflexivity | ]). contradiction.
  - intros key x _. split; discriminate.
Defined.
